(** * Weather dashboard: the decision logic of [weather_app.py]

    A shallow embedding of the pure parts of the dashboard: the clothing,
    air-quality and UV classifiers, the unit labels, the alert rules, the
    daily forecast aggregation and the moon phase formula.

    Conventions of the embedding.
    - A Python number read from the provider's JSON (temperature, wind speed,
      precipitation probability) is a finite number; it is modelled as a
      rational [Q].  Comparisons of such a number with an integer literal are
      exact in Python, so [Qlt]/[Qle] agree with [<]/[<=] of the source.
      Sums, quotients and remainders are the exact ones (no rounding).
    - An [int] is a [Z]; a [str] is a [string] (a sequence of bytes; the
      non-ASCII prefixes of the source's literals are given byte by byte).
    - A Python exception is the [None] of an [option]. *)

From Stdlib Require Import ZArith QArith Qround Bool List String Ascii Lia Lqa.
From Stdlib Require Import Permutation Sorted Orders Mergesort.
Import ListNotations.

Local Open Scope string_scope.
Local Open Scope Z_scope.
Local Open Scope Q_scope.

(** ** Python primitives *)

(** [x < y] on numbers. *)
Definition Qltb (x y : Q) : bool := negb (Qle_bool y x).

(** A [str] literal given by its bytes. *)
Definition bytes (l : list nat) : string :=
  string_of_list_ascii (map ascii_of_nat l).

(** ** Advisory classifiers (lines 29-69) *)

Module Icons.
Definition coat : string := bytes [196; 159; 197; 184; 194; 167; 194; 165]%nat.
Definition shirt : string :=
    bytes [196; 159; 197; 184; 226; 128; 152; 226; 128; 162]%nat.
Definition degree : string := bytes [195; 130; 194; 176]%nat.
Definition warning_sign : string :=
    bytes [195; 162; 197; 161; 194; 160; 195; 175; 194; 184]%nat.
Definition fire : string :=
    bytes [196; 159; 197; 184; 226; 128; 157; 194; 165]%nat.
Definition wind : string :=
    bytes [196; 159; 197; 184; 226; 128; 153; 194; 168]%nat.
Definition storm : string :=
    bytes [195; 162; 226; 128; 186; 203; 134; 195; 175; 194; 184]%nat.
End Icons.

Module Tier.
Definition heavy_winter : string :=
    Icons.coat ++ " Heavy winter coat, gloves, scarf, and warm boots".
Definition warm_jacket : string :=
    Icons.coat ++ " Warm jacket, long sleeves, and closed shoes".
Definition light_jacket : string :=
    Icons.shirt ++ " Light jacket or sweater recommended".
Definition long_sleeves : string :=
    Icons.shirt ++ " Long sleeves or light layers".
Definition casual : string := Icons.shirt ++ " Comfortable casual wear".
Definition breathable : string :=
    Icons.shirt ++ " Light, breathable clothing. Stay hydrated!".

Definition all : list string :=
    [heavy_winter; warm_jacket; light_jacket; long_sleeves; casual; breathable].
End Tier.

Definition get_clothing_suggestion (temp_c : Q) (condition : string) : string :=
  if Qltb temp_c 0 then Tier.heavy_winter
  else if Qltb temp_c 10 then Tier.warm_jacket
  else if Qltb temp_c 15 then Tier.light_jacket
  else if Qltb temp_c 20 then Tier.long_sleeves
  else if Qltb temp_c 25 then Tier.casual
  else Tier.breathable.

Definition get_aqi_info (aqi : Z) : string * string :=
  if (aqi <=? 50)%Z then ("Good", "#00e400")
  else if (aqi <=? 100)%Z then ("Moderate", "#ffff00")
  else if (aqi <=? 150)%Z then ("Unhealthy for Sensitive Groups", "#ff7e00")
  else if (aqi <=? 200)%Z then ("Unhealthy", "#ff0000")
  else if (aqi <=? 300)%Z then ("Very Unhealthy", "#8f3f97")
  else ("Hazardous", "#7e0023").

Definition get_uv_info (uvi : Q) : string * string :=
  if Qltb uvi 3 then ("Low", "#3ea72d")
  else if Qltb uvi 6 then ("Moderate", "#fff300")
  else if Qltb uvi 8 then ("High", "#f18b00")
  else if Qltb uvi 11 then ("Very High", "#e53210")
  else ("Extreme", "#b567a4").

(** The band tables the two classifiers choose from, in order. *)
Definition aqi_tiers : list (string * string) :=
  [ ("Good", "#00e400"); ("Moderate", "#ffff00");
    ("Unhealthy for Sensitive Groups", "#ff7e00"); ("Unhealthy", "#ff0000");
    ("Very Unhealthy", "#8f3f97"); ("Hazardous", "#7e0023") ].

Definition uv_tiers : list (string * string) :=
  [ ("Low", "#3ea72d"); ("Moderate", "#fff300"); ("High", "#f18b00");
    ("Very High", "#e53210"); ("Extreme", "#b567a4") ].

(** [aqi_band i a]: the index [a] lies in the [i]-th AQI band; upper ends are
    inclusive and the last band is open-ended. *)
Definition aqi_band (i : nat) (a : Z) : Prop :=
  match i with
  | 0%nat => (a <= 50)%Z
  | 1%nat => (50 < a <= 100)%Z
  | 2%nat => (100 < a <= 150)%Z
  | 3%nat => (150 < a <= 200)%Z
  | 4%nat => (200 < a <= 300)%Z
  | 5%nat => (300 < a)%Z
  | _ => False
  end.

(** [uv_band i u]: the index [u] lies in the [i]-th UV band; upper ends are
    exclusive and the last band starts at 11. *)
Definition uv_band (i : nat) (u : Q) : Prop :=
  match i with
  | 0%nat => u < 3
  | 1%nat => 3 <= u /\ u < 6
  | 2%nat => 6 <= u /\ u < 8
  | 3%nat => 8 <= u /\ u < 11
  | 4%nat => 11 <= u
  | _ => False
  end.

(** The clothing bands, half-open: lower end included, upper end excluded. *)
Definition clothing_band (i : nat) (t : Q) : Prop :=
  match i with
  | 0%nat => t < 0
  | 1%nat => 0 <= t /\ t < 10
  | 2%nat => 10 <= t /\ t < 15
  | 3%nat => 15 <= t /\ t < 20
  | 4%nat => 20 <= t /\ t < 25
  | 5%nat => 25 <= t
  | _ => False
  end.

(** The air-quality panel of [render_advanced_features] (lines 366-369): the
    provider's 1-5 index is rescaled and classified; the panel shows the
    rescaled value, the label and the colour. *)
Definition aqi_panel (aqi : Z) : Z * (string * string) :=
  let aqi_value := (aqi * 50)%Z in
  (aqi_value, get_aqi_info aqi_value).

(** ** Current conditions (lines 185-236) and alerts (lines 429-445) *)

(** The fields of the provider's current-conditions payload that the
    dashboard reads: [data['main']['temp']], [data['wind']['speed']],
    [data['weather'][0]['main']] and so on. *)
Record current_data := {
  cd_temp : Q;
  cd_feels_like : Q;
  cd_humidity : Z;
  cd_pressure : Z;
  cd_wind_speed : Q;
  cd_condition : string
}.

(** What [render_current_weather] puts on the page: the two unit labels, the
    readings they are attached to, and the clothing advice. *)
Record current_view := {
  v_temp_unit : string;
  v_speed_unit : string;
  v_temp : Q;
  v_feels_like : Q;
  v_wind : Q;
  v_clothing : string
}.

Definition render_current_weather (data : current_data) (units : string)
  : current_view :=
  let temp_unit :=
    if String.eqb units "metric" then Icons.degree ++ "C" else Icons.degree ++ "F" in
  let speed_unit := if String.eqb units "metric" then "m/s" else "mph" in
  let temp := cd_temp data in
  let feels_like := cd_feels_like data in
  let condition := cd_condition data in
  let wind_speed := cd_wind_speed data in
  {| v_temp_unit := temp_unit;
     v_speed_unit := speed_unit;
     v_temp := temp;
     v_feels_like := feels_like;
     v_wind := wind_speed;
     v_clothing := get_clothing_suggestion temp condition |}.

(** The conversion the specification asks for before classification; the
    source has no such function. *)
Definition fahrenheit_to_celsius (f : Q) : Q := (f - 32) * 5 / 9.

Module Alert.
Definition freezing : string * string :=
  (Icons.warning_sign ++ " Freezing Temperature", "warning").
Definition heat : string * string :=
  (Icons.fire ++ " Extreme Heat Warning", "error").
Definition high_wind : string * string :=
  (Icons.wind ++ " High Wind Advisory", "warning").
Definition severe (condition : string) : string * string :=
  (Icons.storm ++ " " ++ condition ++ " Alert", "error").
End Alert.

(** [x in [a, b, ...]] on strings. *)
Definition str_in (x : string) (l : list string) : bool :=
  existsb (String.eqb x) l.

(** The list [alerts] that [render_alerts] builds by successive [append]s. *)
Definition render_alerts (current : current_data) : list (string * string) :=
  let alerts : list (string * string) := [] in
  let temp := cd_temp current in
  let wind_speed := cd_wind_speed current in
  let condition := cd_condition current in
  let alerts := if Qltb temp 0 then (alerts ++ [Alert.freezing])%list else alerts in
  let alerts := if Qltb 35 temp then (alerts ++ [Alert.heat])%list else alerts in
  let alerts := if Qltb 10 wind_speed then (alerts ++ [Alert.high_wind])%list else alerts in
  let alerts :=
    if str_in condition ["Thunderstorm"; "Snow"]
    then (alerts ++ [Alert.severe condition])%list else alerts in
  alerts.

(** ** Dates *)

(** A [datetime] value; Python keeps [1 <= year <= 9999], [1 <= month <= 12]
    and [1 <= day <= 31]. *)
Record datetime := {
  year : Z;
  month : Z;
  day : Z;
  hour : Z;
  minute : Z;
  second : Z
}.

Definition digit (n : Z) : ascii := ascii_of_N (48 + Z.to_N (n mod 10)).

Definition pad2 (n : Z) : string :=
  String (digit (n / 10)) (String (digit n) EmptyString).

Definition pad4 (n : Z) : string :=
  String (digit (n / 1000)) (String (digit (n / 100)) (pad2 n)).

(** [dt.strftime('%Y-%m-%d')], for the four-digit years of forecast
    timestamps. *)
Definition strftime_ymd (d : datetime) : string :=
  pad4 (year d) ++ "-" ++ pad2 (month d) ++ "-" ++ pad2 (day d).

(** Calendar order of two dates. *)
Definition date_lt (a b : datetime) : Prop :=
  (year a < year b \/
   (year a = year b /\
    (month a < month b \/ (month a = month b /\ day a < day b))))%Z.

Definition same_date (a b : datetime) : Prop :=
  year a = year b /\ month a = month b /\ day a = day b.

Definition valid_date (d : datetime) : Prop :=
  (1000 <= year d <= 9999 /\ 1 <= month d <= 12 /\ 1 <= day d <= 31)%Z.

(** ** Python containers *)

(** [max]/[min] with a key: the first item is kept until a strictly better
    one comes; [None] is the [ValueError] on an empty iterable. *)
Fixpoint py_best_from {A K : Type} (better : K -> K -> bool) (key : A -> K)
    (best : A) (l : list A) : A :=
  match l with
  | [] => best
  | x :: r =>
      py_best_from better key (if better (key x) (key best) then x else best) r
  end.

Definition py_best {A K : Type} (better : K -> K -> bool) (key : A -> K)
    (l : list A) : option A :=
  match l with
  | [] => None
  | x :: r => Some (py_best_from better key x r)
  end.

Definition py_max (l : list Q) : option Q :=
  py_best (fun a b => Qltb b a) (fun x => x) l.

Definition py_min (l : list Q) : option Q :=
  py_best (fun a b => Qltb a b) (fun x => x) l.

(** [sum(l)]: from 0, left to right. *)
Definition py_sum (l : list Q) : Q := fold_left Qplus l 0.

(** [x / n]; [None] is the [ZeroDivisionError]. *)
Definition py_div (x : Q) (n : nat) : option Q :=
  match n with
  | O => None
  | S _ => Some (x / inject_Z (Z.of_nat n))
  end.

(** [l.count(x)] on a list of strings. *)
Definition py_count (l : list string) (x : string) : nat :=
  count_occ string_dec l x.

(** [sorted] on strings: ascending in the order of code points. *)
Module StringOrder <: TotalLeBool.
Definition t := string.
Definition leb := String.leb.
Definition leb_total := String.leb_total.
End StringOrder.

Module StringSort := Sort StringOrder.

Definition sorted (l : list string) : list string := StringSort.sort l.

(** A [dict] with string keys, in insertion order. *)
Section Dict.
Context {V : Type}.

Fixpoint dict_get (k : string) (d : list (string * V)) : option V :=
  match d with
  | [] => None
  | (k', v) :: r => if String.eqb k k' then Some v else dict_get k r
  end.

(** [d[k] = v]: the value is replaced where the key stands, a new key goes
    to the end. *)
Fixpoint dict_set (k : string) (v : V) (d : list (string * V))
  : list (string * V) :=
  match d with
  | [] => [(k, v)]
  | (k', v') :: r =>
      if String.eqb k k' then (k, v) :: r else (k', v') :: dict_set k v r
  end.

Definition dict_keys (d : list (string * V)) : list string := map fst d.

End Dict.

(** Sequencing of computations that may raise. *)
Definition bind {A B : Type} (x : option A) (f : A -> option B) : option B :=
  match x with
  | Some a => f a
  | None => None
  end.

Notation "x <- c ;; k" := (bind c (fun x => k))
  (at level 61, c at next level, right associativity).

Fixpoint for_each {A B : Type} (f : A -> option B) (l : list A)
  : option (list B) :=
  match l with
  | [] => Some []
  | x :: r => y <- f x ;; ys <- for_each f r ;; Some (y :: ys)
  end.

(** The first occurrences of the items of a list, in order. *)
Fixpoint uniq (l : list string) : list string :=
  match l with
  | [] => []
  | x :: r => x :: filter (fun y => negb (String.eqb y x)) (uniq r)
  end.

(** What Python promises of [set(l)] when it is iterated: every item of [l]
    once, in an order the language leaves open (for strings it follows the
    hashes, which change from one run to the next). *)
Definition set_semantics (set_iter : list string -> list string) : Prop :=
  forall l, NoDup (set_iter l) /\ (forall x, In x (set_iter l) <-> In x l).

(** ** Daily forecast (lines 304-353) *)

(** One entry of [forecast_data['list']]: [item['dt']],
    [item['main']['temp']], [item['main']['humidity']],
    [item['weather'][0]['main']], [item.get('pop')], [item['wind']['speed']]. *)
Record item := {
  i_dt : Z;
  i_temp : Q;
  i_humidity : Z;
  i_condition : string;
  i_pop : option Q;
  i_wind : Q
}.

(** A value of [daily_data]. *)
Record bucket := {
  temps : list Q;
  conditions : list string;
  rain_prob : list Q;
  humidity : list Z;
  wind : list Q;
  date : datetime
}.

(** One row of the daily forecast: the date of the heading, the condition
    whose icon is shown, and the numbers given to the four metrics (before
    they are printed with [:.0f] and [:.1f]). *)
Record card := {
  card_date : datetime;
  card_condition : string;
  card_high : Q;
  card_low : Q;
  card_rain : Q;
  card_wind : Q;
  card_unit : string
}.

Definition new_bucket (dt : datetime) : bucket :=
  {| temps := []; conditions := []; rain_prob := []; humidity := [];
     wind := []; date := dt |}.

(** [item.get('pop', 0)]. *)
Definition pop_or_zero (it : item) : Q :=
  match i_pop it with Some p => p | None => 0 end.

(** The five [append]s of the loop body. *)
Definition bucket_append (b : bucket) (it : item) : bucket :=
  {| temps := (temps b ++ [i_temp it])%list;
     conditions := (conditions b ++ [i_condition it])%list;
     rain_prob :=
       (rain_prob b ++ [pop_or_zero it])%list;
     humidity := (humidity b ++ [i_humidity it])%list;
     wind := (wind b ++ [i_wind it])%list;
     date := date b |}.

Section Aggregator.

(** [datetime.fromtimestamp]: local time in the zone of the machine the
    dashboard runs on. *)
Variable fromtimestamp : Z -> datetime.

(** The order in which [set(...)] of a list of strings is iterated. *)
Variable set_iter : list string -> list string.

(** The body of the grouping loop; [None] is the [KeyError] of
    [daily_data[date_key]]. *)
Definition add_item (daily_data : list (string * bucket)) (it : item)
  : option (list (string * bucket)) :=
  let dt := fromtimestamp (i_dt it) in
  let date_key := strftime_ymd dt in
  let daily_data :=
    match dict_get date_key daily_data with
    | None => dict_set date_key (new_bucket dt) daily_data
    | Some _ => daily_data
    end in
  b <- dict_get date_key daily_data ;;
  Some (dict_set date_key (bucket_append b it) daily_data).

Fixpoint group_items (daily_data : list (string * bucket)) (l : list item)
  : option (list (string * bucket)) :=
  match l with
  | [] => Some daily_data
  | it :: r => d <- add_item daily_data it ;; group_items d r
  end.

(** [max(set(day['conditions']), key=day['conditions'].count)]. *)
Definition dominant_condition (conds : list string) : option string :=
  py_best (fun a b => Nat.ltb b a) (py_count conds) (set_iter conds).

(** The body of the display loop for one bucket. *)
Definition render_day (temp_unit : string) (b : bucket) : option card :=
  condition <- dominant_condition (conditions b) ;;
  high <- py_max (temps b) ;;
  low <- py_min (temps b) ;;
  rain <- py_max (rain_prob b) ;;
  w <- py_div (py_sum (wind b)) (List.length (wind b)) ;;
  Some {| card_date := date b;
          card_condition := condition;
          card_high := high;
          card_low := low;
          card_rain := rain * 100;
          card_wind := w;
          card_unit := temp_unit |}.

Definition render_daily_forecast (forecast_list : list item) (units : string)
  : option (list card) :=
  let temp_unit :=
    if String.eqb units "metric" then Icons.degree ++ "C" else Icons.degree ++ "F" in
  daily_data <- group_items [] forecast_list ;;
  for_each
    (fun date_key => b <- dict_get date_key daily_data ;; render_day temp_unit b)
    (firstn 7 (sorted (dict_keys daily_data))).

End Aggregator.

(** The dominant condition as the specification words it: the most frequent
    code, the first one met in the bucket winning a tie. *)
Definition first_seen_dominant (conds : list string) : option string :=
  py_best (fun a b => Nat.ltb b a) (py_count conds) conds.

(** Two iteration orders that [set_semantics] allows. *)
Definition first_seen_order (l : list string) : list string := uniq l.
Definition last_seen_order (l : list string) : list string := rev (uniq l).

(** [datetime.fromtimestamp] on a machine whose zone is UTC (days since
    1970-01-01 to a civil date, then the time of day). *)
Definition civil_from_days (z : Z) : Z * Z * Z :=
  let z := (z + 719468)%Z in
  let era := (z / 146097)%Z in
  let doe := (z - era * 146097)%Z in
  let yoe := ((doe - doe / 1460 + doe / 36524 - doe / 146096) / 365)%Z in
  let doy := (doe - (365 * yoe + yoe / 4 - yoe / 100))%Z in
  let mp := ((5 * doy + 2) / 153)%Z in
  let d := (doy - (153 * mp + 2) / 5 + 1)%Z in
  let m := (if mp <? 10 then mp + 3 else mp - 9)%Z in
  let y := (yoe + era * 400)%Z in
  ((if m <=? 2 then y + 1 else y)%Z, m, d).

Definition utc_fromtimestamp (t : Z) : datetime :=
  let '(y, m, d) := civil_from_days (t / 86400)%Z in
  let s := (t mod 86400)%Z in
  {| year := y; month := m; day := d;
     hour := (s / 3600)%Z; minute := (s mod 3600 / 60)%Z; second := (s mod 60)%Z |}.

(** ** Moon phase (lines 422-427) *)

(** [x % p] on numbers, for a positive [p]: the result lies in [[0, p)]. *)
Definition py_mod (x p : Q) : Q := x - inject_Z (Qfloor (x / p)) * p.

(** [int(x)]: the fraction is dropped, towards zero. *)
Definition py_int (x : Q) : Z := Z.quot (Qnum x) (Zpos (Qden x)).

Definition lunation (now : datetime) : Q :=
  inject_Z (year now - 2000) * (123685 # 10000)
  + inject_Z (month now) + inject_Z (day now) / 30.

Definition moon_age (now : datetime) : Q := py_mod (lunation now) (2953 # 100).

Definition phase_idx (now : datetime) : Z :=
  (py_int (moon_age now / (2953 # 100) * 8) mod 8)%Z.

Definition moon_phases : list string :=
  [ bytes [196; 159; 197; 184; 197; 146; 226; 128; 152]%nat;
    bytes [196; 159; 197; 184; 197; 146; 226; 128; 153]%nat;
    bytes [196; 159; 197; 184; 197; 146; 226; 128; 156]%nat;
    bytes [196; 159; 197; 184; 197; 146; 226; 128; 157]%nat;
    bytes [196; 159; 197; 184; 197; 146; 226; 128; 162]%nat;
    bytes [196; 159; 197; 184; 197; 146; 226; 128; 147]%nat;
    bytes [196; 159; 197; 184; 197; 146; 226; 128; 148]%nat;
    bytes [196; 159; 197; 184; 197; 146; 203; 156]%nat ].

(** [moon_phases[phase_idx]]; [None] is the [IndexError]. *)
Definition moon_icon (now : datetime) : option string :=
  nth_error moon_phases (Z.to_nat (phase_idx now)).

(** *** The calendar, to move a date forward by whole days

    [next_day] is the date part of [d + timedelta(days=1)]. *)
Definition is_leap (y : Z) : bool :=
  (((y mod 4 =? 0) && negb (y mod 100 =? 0)) || (y mod 400 =? 0))%Z.

Definition days_in_month (leap : bool) (m : Z) : Z :=
  (if m =? 2 then (if leap then 29 else 28)
   else if (m =? 4) || (m =? 6) || (m =? 9) || (m =? 11) then 30
   else 31)%Z.

(** One day on, as (year carried?, month, day). *)
Definition next_md (leap : bool) (m d : Z) : bool * Z * Z :=
  (if d <? days_in_month leap m then (false, m, d + 1)
   else if m <? 12 then (false, m + 1, 1)
   else (true, 1, 1))%Z.

Definition next_day (t : datetime) : datetime :=
  let '(carry, m, d) := next_md (is_leap (year t)) (month t) (day t) in
  {| year := (if carry then year t + 1 else year t)%Z; month := m; day := d;
     hour := hour t; minute := minute t; second := second t |}.

Fixpoint add_days (n : nat) (t : datetime) : datetime :=
  match n with
  | O => t
  | S k => add_days k (next_day t)
  end.

(** A date of the calendar. *)
Definition calendar_date (t : datetime) : Prop :=
  (1 <= month t <= 12 /\ 1 <= day t <= days_in_month (is_leap (year t)) (month t))%Z.

(** The width of one of the eight phase buckets, in days of lunar age. *)
Definition bucket_width : Q := (2953 # 100) / 8.

(** *** The buckets, read off the input list

    The samples of one date and the bucket the loop builds from them; the
    properties of the aggregation are stated against these. *)
Section Grouping.

Variable fromtimestamp : Z -> datetime.

Definition date_key_of (it : item) : string :=
  strftime_ymd (fromtimestamp (i_dt it)).

(** The samples whose date key is [k], in input order. *)
Definition samples_on (k : string) (l : list item) : list item :=
  filter (fun it => String.eqb (date_key_of it) k) l.

Definition fill (b : bucket) (l : list item) : bucket :=
  fold_left bucket_append l b.

Definition bucket_of (l : list item) (k : string) : option bucket :=
  match samples_on k l with
  | [] => None
  | it :: r => Some (fill (new_bucket (fromtimestamp (i_dt it))) (it :: r))
  end.

End Grouping.

(** [m] is a greatest (least) item of [l]. *)
Definition is_max (m : Q) (l : list Q) : Prop :=
  In m l /\ forall x, In x l -> x <= m.

Definition is_min (m : Q) (l : list Q) : Prop :=
  In m l /\ forall x, In x l -> m <= x.

(** A date as the number YYYYMMDD, and the order of date keys. *)
Definition ymd (d : datetime) : Z := (year d * 10000 + month d * 100 + day d)%Z.

Definition str_lt (a b : string) : Prop := String.ltb a b = true.

(** A sample of a forecast, for the examples: timestamp, temperature,
    condition and wind speed. *)
Definition sample (t : Z) (temp : Q) (condition : string) (w : Q) : item :=
  {| i_dt := t; i_temp := temp; i_humidity := 50; i_condition := condition;
     i_pop := Some (1 # 2); i_wind := w |}.


(** What a card shows, against the samples of its date: the heading is the
    time of the first sample of the date, and the figures are the results of
    [max], [min], [sum] and [len] on the readings of the samples. *)
Definition card_of_samples (set_iter : list string -> list string)
    (first : datetime) (S : list item) (c : card) : Prop :=
  card_date c = first /\
  dominant_condition set_iter (map i_condition S) = Some (card_condition c) /\
  py_max (map i_temp S) = Some (card_high c) /\
  py_min (map i_temp S) = Some (card_low c) /\
  (exists m, py_max (map pop_or_zero S) = Some m /\ card_rain c = m * 100) /\
  card_wind c = py_sum (map i_wind S) / inject_Z (Z.of_nat (List.length S)).

Definition card_key (c : card) : string := strftime_ymd (card_date c).


(** What the card [c] of a forecast [l] says of its day: the samples of the
    day are those of [l] with the date of the card; there is at least one;
    high and low are the greatest and least temperature among them; the
    rain figure is the greatest precipitation probability, as a percentage;
    the wind figure is the sum of the wind speeds over their number. *)
Definition day_summary (fromtimestamp : Z -> datetime) (l : list item)
    (c : card) : Prop :=
  let S := samples_on fromtimestamp (card_key c) l in
  S <> [] /\
  (forall it, In it S <->
              In it l /\ same_date (fromtimestamp (i_dt it)) (card_date c)) /\
  is_max (card_high c) (map i_temp S) /\
  is_min (card_low c) (map i_temp S) /\
  (exists m, is_max m (map pop_or_zero S) /\ card_rain c = m * 100) /\
  card_wind c = py_sum (map i_wind S) / inject_Z (Z.of_nat (List.length S)) /\
  card_low c <= card_high c /\
  (List.length S = 1%nat -> card_low c = card_high c).

(** The dominant condition of the card [c] of a forecast [l]: a code of the
    day that no code of the day outnumbers, and the first such code in the
    order in which the set of the day's codes is iterated. *)
Definition dominant_of_day (fromtimestamp : Z -> datetime)
    (set_iter : list string -> list string) (l : list item) (c : card) : Prop :=
  let conds := map i_condition (samples_on fromtimestamp (card_key c) l) in
  In (card_condition c) conds /\
  (forall x, (py_count conds x <= py_count conds (card_condition c))%nat) /\
  exists before after,
    set_iter conds = (before ++ card_condition c :: after)%list /\
    forall x, In x before ->
              (py_count conds x < py_count conds (card_condition c))%nat.

(** Forecasts for the examples: eight samples of 2026-11-03 (UTC), three
    hours apart, and two samples of one day with different conditions. *)
Definition one_day_forecast : list item :=
  [ sample 1793664000 4 "Clouds" 3; sample 1793674800 3 "Clouds" 2;
    sample 1793685600 2 "Rain" 4; sample 1793696400 5 "Rain" 5;
    sample 1793707200 9 "Rain" 6; sample 1793718000 11 "Clear" 4;
    sample 1793728800 8 "Clouds" 3; sample 1793739600 6 "Clear" 1 ].

Definition tied_forecast : list item :=
  [ sample 1793664000 4 "Rain" 3; sample 1793674800 6 "Clear" 2 ].


(** The value [lunation] in units of 1/30000, an integer; the period 29.53
    is 885900 of these units. *)
Definition lunation_units (now : datetime) : Z :=
  ((year now - 2000) * 371055 + 30000 * month now + 1000 * day now)%Z.

(** [add_days] on month and day alone: [leap0] tells whether the year of
    departure is a leap year, [leap1] whether the next one is, and the
    boolean carried along whether the year has changed.  [None] when a second
    change of year would be needed. *)
Fixpoint advance_md (leap0 leap1 : bool) (n : nat) (carried : bool) (m d : Z)
  : option (bool * Z * Z) :=
  match n with
  | O => Some (carried, m, d)
  | S k =>
      let '(carry, m', d') := next_md (if carried then leap1 else leap0) m d in
      if carry && carried then None
      else advance_md leap0 leap1 k (carry || carried) m' d'
  end.

(** The change of [lunation_units] over [n] days from month [m], day [d]. *)
Definition units_shift (leap0 leap1 : bool) (n : nat) (m d : Z) : option Z :=
  match advance_md leap0 leap1 n false m d with
  | Some (carried, m', d') =>
      Some ((if carried then 371055 else 0) + 30000 * (m' - m) + 1000 * (d' - d))%Z
  | None => None
  end.

Definition shift_in_range (leap0 leap1 : bool) (n : nat) (m d : Z) : bool :=
  match units_shift leap0 leap1 n m d with
  | Some s => ((28000 <=? s) && (s <=? 40055))%Z
  | None => false
  end.

(** Every date of a year and both lengths of a whole-day advance by one
    synodic period. *)
Definition all_shifts_in_range : bool :=
  forallb (fun leap0 =>
  forallb (fun leap1 =>
  forallb (fun n =>
  forallb (fun m =>
  forallb (fun d =>
    negb (Z.of_nat d <=? days_in_month leap0 (Z.of_nat m))%Z
    || shift_in_range leap0 leap1 n (Z.of_nat m) (Z.of_nat d))
    (seq 1 31)) (seq 1 12)) [29; 30]%nat) [false; true]) [false; true].

Definition on_date (y m d : Z) : datetime :=
  {| year := y; month := m; day := d; hour := 12; minute := 0; second := 0 |}.


(** ** UV index and air quality panels (lines 108-123, 361-405) *)

(** [min(a, b)] and [max(a, b)] on two numbers: the first argument is kept
    unless the second is strictly smaller (greater). *)
Definition py_min2 (a b : Q) : Q := if Qltb b a then b else a.
Definition py_max2 (a b : Q) : Q := if Qltb a b then b else a.

(** The UV index that [get_uv_index] makes up from the hour of the day. *)
Definition simulated_uv (hour : Z) : Q :=
  if ((6 <=? hour) && (hour <=? 18))%Z
  then py_min2 11 (py_max2 0 (inject_Z (12 - Z.abs (hour - 12)) * (8 # 10)))
  else 0.

(** [get_uv_index]: [fetched] tells whether the request and the decoding of
    its answer went through; the bare [except] turns a failure into [None]. *)
Definition get_uv_index (fetched : bool) (hour : Z) : option Q :=
  if fetched then Some (simulated_uv hour) else None.

(** The UV column of [render_advanced_features]: nothing but a notice when
    there is no index, else the index, its level and colour, and whether sun
    protection is recommended ([True]) or optional ([False]). *)
Inductive uv_view :=
| UvUnavailable
| UvShown (uvi : Q) (level color : string) (protection : bool).

Definition uv_panel (uvi : option Q) : uv_view :=
  match uvi with
  | Some u =>
      let '(level, color) := get_uv_info u in
      UvShown u level color (Qle_bool 3 u)
  | None => UvUnavailable
  end.

(** One entry of [aqi_data['list']]: [entry['main']['aqi']] and the three
    pollutants read with [components.get(..., 0)]. *)
Record aqi_entry := {
  aq_aqi : Z;
  aq_pm2_5 : option Q;
  aq_pm10 : option Q;
  aq_o3 : option Q
}.

(** The answer of the air pollution endpoint: a dictionary that may lack the
    key ['list']. *)
Record aqi_payload := { aq_list : option (list aqi_entry) }.

Inductive aqi_view :=
| AqiUnavailable
| AqiShown (aqi_value : Z) (quality color : string) (pm2_5 pm10 o3 : Q).

Definition get_or_zero (x : option Q) : Q :=
  match x with Some v => v | None => 0 end.

(** The air quality column of [render_advanced_features]; [None] is the
    [IndexError] of [aqi_data['list'][0]]. *)
Definition air_quality_panel (aqi_data : option aqi_payload) : option aqi_view :=
  match aqi_data with
  | Some payload =>
      match aq_list payload with
      | Some l =>
          match l with
          | [] => None
          | entry :: _ =>
              let '(aqi_value, (quality, color)) := aqi_panel (aq_aqi entry) in
              Some (AqiShown aqi_value quality color
                      (get_or_zero (aq_pm2_5 entry)) (get_or_zero (aq_pm10 entry))
                      (get_or_zero (aq_o3 entry)))
          end
      | None => Some AqiUnavailable
      end
  | None => Some AqiUnavailable
  end.

(** ** Day length (lines 410-420)

    [sunrise] and [sunset] are the two epoch values, read on a machine whose
    UTC offset is the same at both moments, so that the difference of the
    two local times is [sunset - sunrise] seconds; [.seconds] of a
    [timedelta] is that number modulo one day. *)
Definition day_length (sunrise sunset : Z) : Z * Z :=
  let seconds := ((sunset - sunrise) mod 86400)%Z in
  ((seconds / 3600)%Z, (seconds mod 3600 / 60)%Z).

(** ** Favourite locations (lines 480-481, 555-573) *)

Definition initial_favorites : list string := ["London"; "New York"; "Tokyo"].

(** The "Add" button: [clicked] is what [st.button] returned. *)
Definition add_favorite (favorites : list string) (new_fav : string)
    (clicked : bool) : list string :=
  if clicked && negb (String.eqb new_fav "")
  then if str_in new_fav favorites then favorites
       else (favorites ++ [new_fav])%list
  else favorites.

(** [l.remove(x)]: the first occurrence goes; [None] is the [ValueError]. *)
Fixpoint list_remove (x : string) (l : list string) : option (list string) :=
  match l with
  | [] => None
  | y :: r =>
      if String.eqb y x then Some r
      else match list_remove x r with
           | Some r' => Some (y :: r')
           | None => None
           end
  end.


(** The change of [lunation_units] over [n] days is not negative and stays
    below the width of a bucket (110737 units); checked for every date of a
    year and every [n] up to 30. *)
Definition short_shift_in_range (leap0 leap1 : bool) (n : nat) (m d : Z) : bool :=
  match units_shift leap0 leap1 n m d with
  | Some s => ((0 <=? s) && (s <=? 40055))%Z
  | None => false
  end.

Definition all_short_shifts_in_range : bool :=
  forallb (fun leap0 =>
  forallb (fun leap1 =>
  forallb (fun n =>
  forallb (fun m =>
  forallb (fun d =>
    negb (Z.of_nat d <=? days_in_month leap0 (Z.of_nat m))%Z
    || short_shift_in_range leap0 leap1 n (Z.of_nat m) (Z.of_nat d))
    (seq 1 31)) (seq 1 12)) (seq 0 31)) [false; true]) [false; true].


(** ** Hourly forecast (lines 238-302) *)

(** One entry of [forecast_data['list']] as the hourly forecast reads it:
    [item['dt']], [item['main']['temp']], [item['main']['feels_like']],
    [item['weather'][0]['main']] and [item.get('pop')]. *)
Record hourly_item := {
  h_dt : Z;
  h_temp : Q;
  h_feels_like : Q;
  h_condition : string;
  h_pop : option Q
}.

(** One of the cards under the chart: the time, the condition whose icon is
    shown, the temperature and the rain probability in percent (the numbers
    before they are printed with [:.0f]). *)
Record hourly_card := {
  hc_time : string;
  hc_condition : string;
  hc_temp : Q;
  hc_rain : Q
}.

(** What [render_hourly_forecast] builds: the five lists filled by the loop
    (the chart plots [hv_temps] and [hv_feels_like] over [hv_times]), the
    number given to [st.columns], and the cards of [zip(cols, ...)].  What
    [st.columns] does with that number is Streamlit's business. *)
Record hourly_view := {
  hv_times : list string;
  hv_temps : list Q;
  hv_feels_like : list Q;
  hv_conditions : list string;
  hv_rain_prob : list Q;
  hv_columns : nat;
  hv_cards : list hourly_card
}.

(** [dt.strftime('%H:%M')]. *)
Definition strftime_hm (d : datetime) : string :=
  pad2 (hour d) ++ ":" ++ pad2 (minute d).

Definition render_hourly_forecast (fromtimestamp : Z -> datetime)
    (forecast_list : list hourly_item) : hourly_view :=
  let hourly_data := firstn 8 forecast_list in
  let columns := Nat.min (List.length hourly_data) 4 in
  {| hv_times := map (fun it => strftime_hm (fromtimestamp (h_dt it))) hourly_data;
     hv_temps := map h_temp hourly_data;
     hv_feels_like := map h_feels_like hourly_data;
     hv_conditions := map h_condition hourly_data;
     hv_rain_prob := map (fun it => get_or_zero (h_pop it) * 100) hourly_data;
     hv_columns := columns;
     hv_cards :=
       map (fun it =>
              {| hc_time := strftime_hm (fromtimestamp (h_dt it));
                 hc_condition := h_condition it;
                 hc_temp := h_temp it;
                 hc_rain := get_or_zero (h_pop it) * 100 |})
           (firstn columns (firstn 4 hourly_data)) |}.


(** Sample payloads used in the examples below. *)
Definition reading (temp wind_speed : Q) (condition : string) : current_data :=
  {| cd_temp := temp; cd_feels_like := temp; cd_humidity := 60;
     cd_pressure := 1013; cd_wind_speed := wind_speed;
     cd_condition := condition |}.

(** * Properties *)

(** ** Comparisons *)

Lemma Qltb_lt (x y : Q) : Qltb x y = true <-> x < y.
Proof.
  unfold Qltb. rewrite negb_true_iff. split.
  - intros H. apply Qnot_le_lt. intros Hle.
    apply Qle_bool_iff in Hle. congruence.
  - intros H. destruct (Qle_bool y x) eqn:E; [|reflexivity].
    apply Qle_bool_iff in E. exfalso. exact (Qlt_not_le _ _ H E).
Qed.

Lemma Qltb_ge (x y : Q) : Qltb x y = false <-> y <= x.
Proof.
  unfold Qltb. rewrite negb_false_iff. apply Qle_bool_iff.
Qed.

(** Case analysis on the comparisons of a cascade of [if]s over [Q]. *)
Ltac split_Qltb :=
  repeat match goal with
  | |- context [Qltb ?x ?y] =>
      let E := fresh "E" in
      destruct (Qltb x y) eqn:E;
      [apply Qltb_lt in E | apply Qltb_ge in E]
  end.

Ltac split_Zleb :=
  repeat match goal with
  | |- context [(?x <=? ?y)%Z] =>
      let E := fresh "E" in
      destruct (x <=? y)%Z eqn:E;
      [apply Z.leb_le in E | apply Z.leb_gt in E]
  end.

Ltac str_neq := apply String.eqb_neq; vm_compute; reflexivity.

Ltac str_notin :=
  let H := fresh "H" in
  intros H; simpl in H;
  repeat (destruct H as [H | H]; [revert H; str_neq |]);
  exact H.

Ltac str_nodup := repeat (constructor; [str_notin |]); constructor.

(** ** Clothing advice *)

Lemma tiers_distinct : NoDup Tier.all.
Proof. unfold Tier.all. str_nodup. Qed.

Lemma clothing_band_tier (t : Q) (condition : string) (i : nat) :
  clothing_band i t ->
  nth_error Tier.all i = Some (get_clothing_suggestion t condition).
Proof.
  unfold get_clothing_suggestion.
  do 6 (destruct i as [|i]; [simpl; intros; split_Qltb; solve [reflexivity | lra] |]).
  simpl. contradiction.
Qed.

Lemma clothing_band_total (t : Q) : exists i, clothing_band i t.
Proof.
  destruct (Qlt_le_dec t 0); [exists 0%nat; assumption |].
  destruct (Qlt_le_dec t 10); [exists 1%nat; simpl; auto |].
  destruct (Qlt_le_dec t 15); [exists 2%nat; simpl; auto |].
  destruct (Qlt_le_dec t 20); [exists 3%nat; simpl; auto |].
  destruct (Qlt_le_dec t 25); [exists 4%nat; simpl; auto |].
  exists 5%nat; assumption.
Qed.

Lemma clothing_band_unique (t : Q) (i j : nat) :
  clothing_band i t -> clothing_band j t -> i = j.
Proof.
  do 6 (destruct i as [|i]; [
    do 6 (destruct j as [|j]; [simpl; intros; solve [reflexivity | lra] |]);
    simpl; intros; contradiction |]).
  simpl; contradiction.
Qed.

(** C8.  For every temperature the clothing classifier returns the tier of
    the one half-open band the temperature lies in (below 0; from 0 up to 10;
    from 10 up to 15; from 15 up to 20; from 20 up to 25; 25 and above), the
    six tiers are distinct texts, and each boundary value 0, 10, 15, 20, 25
    gets the tier of the band above it. *)
Theorem clothing_half_open_bands :
  (forall (t : Q) (condition : string),
      exists i,
        clothing_band i t /\
        nth_error Tier.all i = Some (get_clothing_suggestion t condition) /\
        forall j, clothing_band j t -> j = i) /\
  NoDup Tier.all /\
  (forall condition,
      get_clothing_suggestion 0 condition = Tier.warm_jacket /\
      get_clothing_suggestion 10 condition = Tier.light_jacket /\
      get_clothing_suggestion 15 condition = Tier.long_sleeves /\
      get_clothing_suggestion 20 condition = Tier.casual /\
      get_clothing_suggestion 25 condition = Tier.breathable).
Proof.
  split; [| split].
  - intros t condition.
    destruct (clothing_band_total t) as [i Hi].
    exists i. split; [exact Hi | split].
    + apply clothing_band_tier; exact Hi.
    + intros j Hj. apply (clothing_band_unique t j i Hj Hi).
  - exact tiers_distinct.
  - intros condition. repeat split.
Qed.

(** ** Air quality and UV *)

Lemma aqi_band_tier (a : Z) (i : nat) :
  aqi_band i a -> nth_error aqi_tiers i = Some (get_aqi_info a).
Proof.
  unfold get_aqi_info.
  do 6 (destruct i as [|i]; [simpl; intros; split_Zleb; solve [reflexivity | lia] |]).
  simpl. contradiction.
Qed.

Lemma aqi_band_total (a : Z) : exists i, aqi_band i a.
Proof.
  destruct (Z_le_gt_dec a 50); [exists 0%nat; assumption |].
  destruct (Z_le_gt_dec a 100); [exists 1%nat; simpl; lia |].
  destruct (Z_le_gt_dec a 150); [exists 2%nat; simpl; lia |].
  destruct (Z_le_gt_dec a 200); [exists 3%nat; simpl; lia |].
  destruct (Z_le_gt_dec a 300); [exists 4%nat; simpl; lia |].
  exists 5%nat; simpl; lia.
Qed.

Lemma aqi_band_unique (a : Z) (i j : nat) :
  aqi_band i a -> aqi_band j a -> i = j.
Proof.
  do 6 (destruct i as [|i]; [
    do 6 (destruct j as [|j]; [simpl; intros; solve [reflexivity | lia] |]);
    simpl; intros; contradiction |]).
  simpl; contradiction.
Qed.

Lemma uv_band_tier (u : Q) (i : nat) :
  uv_band i u -> nth_error uv_tiers i = Some (get_uv_info u).
Proof.
  unfold get_uv_info.
  do 5 (destruct i as [|i]; [simpl; intros; split_Qltb; solve [reflexivity | lra] |]).
  simpl. contradiction.
Qed.

Lemma uv_band_total (u : Q) : exists i, uv_band i u.
Proof.
  destruct (Qlt_le_dec u 3); [exists 0%nat; assumption |].
  destruct (Qlt_le_dec u 6); [exists 1%nat; simpl; auto |].
  destruct (Qlt_le_dec u 8); [exists 2%nat; simpl; auto |].
  destruct (Qlt_le_dec u 11); [exists 3%nat; simpl; auto |].
  exists 4%nat; assumption.
Qed.

Lemma uv_band_unique (u : Q) (i j : nat) :
  uv_band i u -> uv_band j u -> i = j.
Proof.
  do 5 (destruct i as [|i]; [
    do 5 (destruct j as [|j]; [simpl; intros; solve [reflexivity | lra] |]);
    simpl; intros; contradiction |]).
  simpl; contradiction.
Qed.

Lemma aqi_tiers_distinct : NoDup (map fst aqi_tiers) /\ NoDup (map snd aqi_tiers).
Proof. split; simpl; str_nodup. Qed.

Lemma uv_tiers_distinct : NoDup (map fst uv_tiers) /\ NoDup (map snd uv_tiers).
Proof. split; simpl; str_nodup. Qed.

(** C9.  Each of the two classifiers returns the (label, colour) pair of the
    one band its input lies in.  The six AQI bands have inclusive upper ends
    50, 100, 150, 200, 300 and an open last band; the five UV bands have
    exclusive upper ends 3, 6, 8, 11 with Extreme from 11 on.  Every value is
    in exactly one band (no gap, no overlap), and the labels and colours of a
    table are pairwise distinct. *)
Theorem aqi_uv_bands_partition :
  (forall a : Z,
      exists i,
        aqi_band i a /\
        nth_error aqi_tiers i = Some (get_aqi_info a) /\
        forall j, aqi_band j a -> j = i) /\
  (forall u : Q,
      exists i,
        uv_band i u /\
        nth_error uv_tiers i = Some (get_uv_info u) /\
        forall j, uv_band j u -> j = i) /\
  map fst aqi_tiers =
    ["Good"; "Moderate"; "Unhealthy for Sensitive Groups"; "Unhealthy";
     "Very Unhealthy"; "Hazardous"] /\
  map fst uv_tiers = ["Low"; "Moderate"; "High"; "Very High"; "Extreme"] /\
  NoDup (map fst aqi_tiers) /\ NoDup (map snd aqi_tiers) /\
  NoDup (map fst uv_tiers) /\ NoDup (map snd uv_tiers).
Proof.
  split; [| split; [| split; [| split]]].
  - intros a. destruct (aqi_band_total a) as [i Hi].
    exists i. split; [exact Hi | split].
    + apply aqi_band_tier; exact Hi.
    + intros j Hj. apply (aqi_band_unique a j i Hj Hi).
  - intros u. destruct (uv_band_total u) as [i Hi].
    exists i. split; [exact Hi | split].
    + apply uv_band_tier; exact Hi.
    + intros j Hj. apply (uv_band_unique u j i Hj Hi).
  - reflexivity.
  - reflexivity.
  - destruct aqi_tiers_distinct, uv_tiers_distinct. auto.
Qed.

(** C10.  For a provider index between 1 and 5 the panel shows the index
    times 50, one of 50, 100, 150, 200, 250; its band is one of the first
    five (Good up to Very Unhealthy) and never Hazardous. *)
Theorem provider_aqi_never_hazardous (aqi : Z) :
  (1 <= aqi <= 5)%Z ->
  fst (aqi_panel aqi) = (aqi * 50)%Z /\
  In (fst (aqi_panel aqi)) [50; 100; 150; 200; 250]%Z /\
  In (snd (aqi_panel aqi)) (firstn 5 aqi_tiers) /\
  In (fst (snd (aqi_panel aqi)))
     ["Good"; "Moderate"; "Unhealthy for Sensitive Groups"; "Unhealthy";
      "Very Unhealthy"] /\
  fst (snd (aqi_panel aqi)) <> "Hazardous".
Proof.
  intros H.
  assert (aqi = 1 \/ aqi = 2 \/ aqi = 3 \/ aqi = 4 \/ aqi = 5)%Z
    as [-> | [-> | [-> | [-> | ->]]]] by lia;
    (split; [reflexivity |]);
    (split; [simpl; tauto |]);
    (split; [simpl; tauto |]);
    (split; [simpl; tauto | simpl; discriminate]).
Qed.

Lemma provider_aqi_never_hazardous_witness :
  fst (snd (aqi_panel 5)) = "Very Unhealthy" /\
  fst (snd (aqi_panel 5)) <> "Hazardous".
Proof.
  split.
  - reflexivity.
  - apply (provider_aqi_never_hazardous 5). lia.
Defined.

(** ** Unit labels *)

Lemma unit_labels_metric (data : current_data) :
  v_temp_unit (render_current_weather data "metric") = Icons.degree ++ "C" /\
  v_speed_unit (render_current_weather data "metric") = "m/s".
Proof. split; reflexivity. Qed.

Lemma unit_labels_other (data : current_data) (units : string) :
  units <> "metric" ->
  v_temp_unit (render_current_weather data units) = Icons.degree ++ "F" /\
  v_speed_unit (render_current_weather data units) = "mph".
Proof.
  intros H. apply String.eqb_neq in H.
  unfold render_current_weather; simpl. rewrite H. split; reflexivity.
Qed.

(** C2, as the code has it.  The selector "metric" gives the labels of
    degrees Celsius and m/s; every other selector, "imperial" among them,
    gives the labels of degrees Fahrenheit and mph. *)
Theorem unit_labels_binary (data : current_data) (units : string) :
  let v := render_current_weather data units in
  (units = "metric" ->
     v_temp_unit v = Icons.degree ++ "C" /\ v_speed_unit v = "m/s") /\
  (units = "imperial" ->
     v_temp_unit v = Icons.degree ++ "F" /\ v_speed_unit v = "mph") /\
  (units <> "metric" ->
     v_temp_unit v = Icons.degree ++ "F" /\ v_speed_unit v = "mph").
Proof.
  intros v. subst v. split; [| split].
  - intros ->. apply unit_labels_metric.
  - intros ->. apply unit_labels_other. str_neq.
  - apply unit_labels_other.
Qed.

(** C2, counterexample.  The selector "kelvin" is neither "metric" nor
    "imperial"; it does not fall back to the metric labels, it gets the
    imperial ones. *)
Lemma unit_labels_no_metric_fallback :
  let v := render_current_weather (reading 20 3 "Clear") "kelvin" in
  v_temp_unit v = Icons.degree ++ "F" /\
  v_speed_unit v = "mph" /\
  v_temp_unit v <> Icons.degree ++ "C" /\
  v_speed_unit v <> "m/s".
Proof.
  cbv zeta. split; [reflexivity | split; [reflexivity | split]]; str_neq.
Qed.

(** ** Clothing advice on the page *)

(** C3, what the code does.  The classifier is given the temperature as it
    is displayed, whatever the measurement system: nothing is converted.  At
    50 degrees Fahrenheit (10 degrees Celsius) under "imperial" the page
    advises light, breathable clothing, the tier of 25 degrees Celsius and
    above, where the Celsius value gets the light-jacket tier. *)
Theorem clothing_gets_displayed_temperature :
  (forall (data : current_data) (units : string),
      v_clothing (render_current_weather data units) =
      get_clothing_suggestion (cd_temp data) (cd_condition data)) /\
  (let v := render_current_weather (reading 50 3 "Clear") "imperial" in
   v_temp_unit v = Icons.degree ++ "F" /\
   v_clothing v = Tier.breathable /\
   fahrenheit_to_celsius 50 == 10 /\
   get_clothing_suggestion (fahrenheit_to_celsius 50) "Clear" = Tier.light_jacket /\
   v_clothing v <> get_clothing_suggestion (fahrenheit_to_celsius 50) "Clear").
Proof.
  split.
  - intros data units. reflexivity.
  - cbv zeta. split; [reflexivity | split; [reflexivity | split; [reflexivity | split]]].
    + reflexivity.
    + str_neq.
Qed.

(** ** Alerts *)

Lemma render_alerts_concat (current : current_data) :
  render_alerts current =
    ((if Qltb (cd_temp current) 0 then [Alert.freezing] else []) ++
     (if Qltb 35 (cd_temp current) then [Alert.heat] else []) ++
     (if Qltb 10 (cd_wind_speed current) then [Alert.high_wind] else []) ++
     (if str_in (cd_condition current) ["Thunderstorm"; "Snow"]
      then [Alert.severe (cd_condition current)] else []))%list.
Proof.
  unfold render_alerts. cbv zeta.
  destruct (Qltb (cd_temp current) 0), (Qltb 35 (cd_temp current)),
    (Qltb 10 (cd_wind_speed current)),
    (str_in (cd_condition current) ["Thunderstorm"; "Snow"]); reflexivity.
Qed.

Lemma str_in_severe (condition : string) :
  str_in condition ["Thunderstorm"; "Snow"] = true <->
  condition = "Thunderstorm" \/ condition = "Snow".
Proof.
  unfold str_in. simpl. rewrite !orb_true_iff, !String.eqb_eq.
  intuition discriminate.
Qed.

Lemma alert_kinds_distinct (condition : string) :
  Alert.heat <> Alert.freezing /\ Alert.high_wind <> Alert.freezing /\
  Alert.severe condition <> Alert.freezing /\ Alert.high_wind <> Alert.heat /\
  Alert.severe condition <> Alert.heat /\ Alert.severe condition <> Alert.high_wind.
Proof. repeat split; intros H; vm_compute in H; discriminate H. Qed.

Lemma in_fired {A : Type} (b : bool) (x y : A) :
  In x (if b then [y] else []) <-> b = true /\ y = x.
Proof.
  destruct b; simpl; intuition discriminate.
Qed.


(** ** [max] and [min] with a key *)

Section Best.
Context {A K : Type}.
Variable better : K -> K -> bool.
Variable key : A -> K.

(** [better] is a strict weak order on keys. *)
Hypothesis better_asym : forall a b, better a b = true -> better b a = false.
Hypothesis better_negtrans :
  forall a b c, better a b = false -> better b c = false -> better a c = false.

Lemma better_trans (a b c : K) :
  better a b = true -> better b c = true -> better a c = true.
Proof.
  intros Hab Hbc. destruct (better a c) eqn:E; [reflexivity |].
  pose proof (better_negtrans a c b E (better_asym b c Hbc)). congruence.
Qed.

Lemma better_trans_l (a b c : K) :
  better a b = true -> better c b = false -> better a c = true.
Proof.
  intros Hab Hcb. destruct (better a c) eqn:E; [reflexivity |].
  pose proof (better_negtrans a c b E Hcb). congruence.
Qed.

(** The item chosen is an item of the iterable, no item is better, and every
    item before it is strictly worse: it is the first of the best. *)
Definition first_best (l : list A) (r : A) : Prop :=
  (forall x, In x l -> better (key x) (key r) = false) /\
  exists l1 l2, l = (l1 ++ r :: l2)%list /\
                forall x, In x l1 -> better (key r) (key x) = true.

Lemma py_best_from_first_best (l : list A) (best : A) :
  first_best (best :: l) (py_best_from better key best l).
Proof.
  revert best. induction l as [| x r IH]; intros best.
  - simpl. split.
    + intros y [<- | []].
      destruct (better (key best) (key best)) eqn:E; [| reflexivity].
      pose proof (better_asym _ _ E). congruence.
    + exists [], []. split; [reflexivity | intros y []].
  - simpl. destruct (better (key x) (key best)) eqn:E.
    + destruct (IH x) as [Hmax (l1 & l2 & Heq & Hfirst)].
      set (res := py_best_from better key x r) in *.
      split.
      * intros y [<- | Hy]; [| apply Hmax; exact Hy].
        apply better_negtrans with (b := key x).
        -- apply better_asym; exact E.
        -- apply Hmax. left; reflexivity.
      * destruct l1 as [| z l1]; simpl in Heq.
        -- injection Heq as Hx Hr. exists [best], l2. split.
           ++ simpl. rewrite <- Hx, Hr. reflexivity.
           ++ intros y [<- | []]. rewrite <- Hx. exact E.
        -- injection Heq as Hx Hr. subst z. exists (best :: x :: l1), l2. split.
           ++ simpl. rewrite Hr. reflexivity.
           ++ intros y [<- | Hy]; [| apply Hfirst; exact Hy].
              apply better_trans with (b := key x); [| exact E].
              apply Hfirst. left; reflexivity.
    + destruct (IH best) as [Hmax (l1 & l2 & Heq & Hfirst)].
      set (res := py_best_from better key best r) in *.
      split.
      * intros y [<- | [<- | Hy]].
        -- apply Hmax. left; reflexivity.
        -- apply better_negtrans with (b := key best); [exact E |].
           apply Hmax. left; reflexivity.
        -- apply Hmax. right; exact Hy.
      * destruct l1 as [| z l1]; simpl in Heq.
        -- injection Heq as Hb Hr. exists [], (x :: l2). split.
           ++ simpl. rewrite <- Hb, Hr. reflexivity.
           ++ intros y [].
        -- injection Heq as Hb Hr. subst z. exists (best :: x :: l1), l2. split.
           ++ simpl. rewrite Hr. reflexivity.
           ++ intros y [<- | [<- | Hy]].
              ** apply Hfirst. left; reflexivity.
              ** apply better_trans_l with (b := key best); [| exact E].
                 apply Hfirst. left; reflexivity.
              ** apply Hfirst. right; exact Hy.
Qed.

Lemma py_best_first_best (l : list A) :
  l <> [] -> exists r, py_best better key l = Some r /\ first_best l r.
Proof.
  destruct l as [| x l]; [congruence |]. intros _.
  exists (py_best_from better key x l). split; [reflexivity |].
  apply py_best_from_first_best.
Qed.

Lemma first_best_In (l : list A) (r : A) : first_best l r -> In r l.
Proof.
  intros [_ (l1 & l2 & -> & _)]. apply in_or_app. right. left. reflexivity.
Qed.

End Best.

Lemma py_max_spec (l : list Q) :
  l <> [] ->
  exists m, py_max l = Some m /\ In m l /\ forall x, In x l -> x <= m.
Proof.
  intros Hl.
  destruct (py_best_first_best (fun a b => Qltb b a) (fun x : Q => x)) with (l := l)
    as (m & Hm & Hbest); [| | exact Hl |].
  - intros a b H. apply Qltb_lt in H. apply Qltb_ge. lra.
  - intros a b c H1 H2. apply Qltb_ge in H1, H2. apply Qltb_ge. lra.
  - exists m. split; [exact Hm | split].
    + eapply first_best_In; exact Hbest.
    + intros x Hx. destruct Hbest as [Hmax _].
      apply Qltb_ge. apply Hmax. exact Hx.
Qed.

Lemma py_min_spec (l : list Q) :
  l <> [] ->
  exists m, py_min l = Some m /\ In m l /\ forall x, In x l -> m <= x.
Proof.
  intros Hl.
  destruct (py_best_first_best (fun a b => Qltb a b) (fun x : Q => x)) with (l := l)
    as (m & Hm & Hbest); [| | exact Hl |].
  - intros a b H. apply Qltb_lt in H. apply Qltb_ge. lra.
  - intros a b c H1 H2. apply Qltb_ge in H1, H2. apply Qltb_ge. lra.
  - exists m. split; [exact Hm | split].
    + eapply first_best_In; exact Hbest.
    + intros x Hx. destruct Hbest as [Hmax _].
      apply Qltb_ge. apply Hmax. exact Hx.
Qed.

Lemma py_max_singleton (x : Q) : py_max [x] = Some x.
Proof. reflexivity. Qed.

Lemma py_min_singleton (x : Q) : py_min [x] = Some x.
Proof. reflexivity. Qed.

(** ** Sets of condition codes *)

Lemma uniq_In (l : list string) (x : string) : In x (uniq l) <-> In x l.
Proof.
  induction l as [| y r IH]; simpl; [tauto |].
  rewrite filter_In, IH, negb_true_iff, String.eqb_neq.
  destruct (string_dec y x) as [-> | Hne]; [tauto |].
  split.
  - intros [H | [H _]]; auto.
  - intros [H | H]; auto.
Qed.

Lemma uniq_NoDup (l : list string) : NoDup (uniq l).
Proof.
  induction l as [| y r IH]; simpl; constructor.
  - rewrite filter_In, negb_true_iff, String.eqb_neq. tauto.
  - apply NoDup_filter. exact IH.
Qed.

Lemma first_seen_order_set : set_semantics first_seen_order.
Proof.
  intros l. split; [apply uniq_NoDup | apply uniq_In].
Qed.

Lemma last_seen_order_set : set_semantics last_seen_order.
Proof.
  intros l. unfold last_seen_order. split.
  - apply NoDup_rev, uniq_NoDup.
  - intros x. rewrite <- in_rev. apply uniq_In.
Qed.

Lemma py_count_pos (l : list string) (x : string) :
  In x l <-> (0 < py_count l x)%nat.
Proof. unfold py_count. apply count_occ_In. Qed.

(** The dominant condition of a non-empty bucket: a code of the bucket that
    no code outnumbers, and the first such code in the iteration order of
    the set. *)
Lemma dominant_condition_mode (set_iter : list string -> list string)
    (conds : list string) :
  set_semantics set_iter -> conds <> [] ->
  exists c,
    dominant_condition set_iter conds = Some c /\
    In c conds /\
    (forall x, (py_count conds x <= py_count conds c)%nat) /\
    exists before after,
      set_iter conds = (before ++ c :: after)%list /\
      forall x, In x before -> (py_count conds x < py_count conds c)%nat.
Proof.
  intros Hset Hne.
  destruct (Hset conds) as [_ Hin].
  assert (Hne' : set_iter conds <> []).
  { destruct conds as [| c0 r]; [congruence |].
    intros E. pose proof (proj2 (Hin c0) (or_introl eq_refl)) as H.
    rewrite E in H. exact H. }
  destruct (py_best_first_best (fun a b => Nat.ltb b a) (py_count conds))
    with (l := set_iter conds) as (c & Hc & Hbest); [| | exact Hne' |].
  - intros a b H. apply Nat.ltb_lt in H. apply Nat.ltb_ge. lia.
  - intros a b c H1 H2. apply Nat.ltb_ge in H1, H2. apply Nat.ltb_ge. lia.
  - exists c. split; [exact Hc |].
    assert (Hcin : In c conds)
      by (apply Hin; eapply first_best_In; exact Hbest).
    split; [exact Hcin |].
    destruct Hbest as [Hmax (l1 & l2 & Heq & Hfirst)].
    split.
    + intros x. destruct (in_dec string_dec x conds) as [Hx | Hx].
      * apply Nat.ltb_ge. apply Hmax. apply Hin. exact Hx.
      * unfold py_count at 1.
        rewrite (proj1 (count_occ_not_In string_dec conds x) Hx). lia.
    + exists l1, l2. split; [exact Heq |].
      intros x Hx. apply Nat.ltb_lt. apply Hfirst. exact Hx.
Qed.

(** ** Dictionaries *)

Section DictFacts.
Context {V : Type}.
Implicit Types (d : list (string * V)) (k : string) (v : V).

Lemma dict_get_set_eq d k v : dict_get k (dict_set k v d) = Some v.
Proof.
  induction d as [| [k' v'] r IH]; simpl.
  - rewrite String.eqb_refl. reflexivity.
  - destruct (String.eqb k k') eqn:E; simpl.
    + rewrite String.eqb_refl. reflexivity.
    + rewrite E. exact IH.
Qed.

Lemma dict_get_set_neq d k k' v :
  k <> k' -> dict_get k (dict_set k' v d) = dict_get k d.
Proof.
  intros Hne. induction d as [| [k0 v0] r IH]; simpl.
  - apply String.eqb_neq in Hne. rewrite Hne. reflexivity.
  - destruct (String.eqb k' k0) eqn:E; simpl.
    + apply String.eqb_eq in E. subst k0.
      apply String.eqb_neq in Hne. rewrite Hne. reflexivity.
    + destruct (String.eqb k k0); [reflexivity | exact IH].
Qed.

Lemma dict_keys_In d k : In k (dict_keys d) <-> dict_get k d <> None.
Proof.
  induction d as [| [k' v'] r IH]; simpl.
  - split; [tauto | congruence].
  - destruct (String.eqb k k') eqn:E.
    + apply String.eqb_eq in E. subst k'. split; [congruence | auto].
    + apply String.eqb_neq in E. rewrite <- IH. split.
      * intros [H | H]; [congruence | exact H].
      * auto.
Qed.

Lemma dict_keys_set d k v :
  dict_keys (dict_set k v d) =
  match dict_get k d with
  | Some _ => dict_keys d
  | None => (dict_keys d ++ [k])%list
  end.
Proof.
  induction d as [| [k' v'] r IH]; simpl; [reflexivity |].
  destruct (String.eqb k k') eqn:E; simpl.
  - apply String.eqb_eq in E. subst k'. reflexivity.
  - rewrite IH. destruct (dict_get k r); reflexivity.
Qed.

Lemma dict_set_NoDup d k v :
  NoDup (dict_keys d) -> NoDup (dict_keys (dict_set k v d)).
Proof.
  intros Hnd. rewrite dict_keys_set.
  destruct (dict_get k d) eqn:E; [exact Hnd |].
  apply NoDup_app; [exact Hnd | repeat constructor; simpl; tauto |].
  intros x Hx [<- | []].
  apply dict_keys_In in Hx. congruence.
Qed.

End DictFacts.

(** ** The grouping loop *)

Section GroupingFacts.

Variable fromtimestamp : Z -> datetime.


Lemma samples_on_cons_eq (it : item) (r : list item) :
  samples_on fromtimestamp (date_key_of fromtimestamp it) (it :: r)
  = it :: samples_on fromtimestamp (date_key_of fromtimestamp it) r.
Proof.
  unfold samples_on. cbn [filter]. rewrite String.eqb_refl. reflexivity.
Qed.

Lemma samples_on_cons_neq (k : string) (it : item) (r : list item) :
  k <> date_key_of fromtimestamp it ->
  samples_on fromtimestamp k (it :: r) = samples_on fromtimestamp k r.
Proof.
  intros Hne. unfold samples_on. cbn [filter].
  destruct (String.eqb (date_key_of fromtimestamp it) k) eqn:E; [| reflexivity].
  apply String.eqb_eq in E. congruence.
Qed.

Lemma samples_on_In (k : string) (l : list item) (it : item) :
  In it (samples_on fromtimestamp k l) <-> In it l /\ date_key_of fromtimestamp it = k.
Proof.
  unfold samples_on. rewrite filter_In, String.eqb_eq. tauto.
Qed.

(** One turn of the loop never raises; it touches the bucket of the item's
    date only. *)
Lemma add_item_get (d : list (string * bucket)) (it : item) :
  exists d',
    add_item fromtimestamp d it = Some d' /\
    (NoDup (dict_keys d) -> NoDup (dict_keys d')) /\
    dict_get (date_key_of fromtimestamp it) d' =
      Some (bucket_append
              (match dict_get (date_key_of fromtimestamp it) d with
               | Some b => b
               | None => new_bucket (fromtimestamp (i_dt it))
               end) it) /\
    forall k, k <> date_key_of fromtimestamp it -> dict_get k d' = dict_get k d.
Proof.
  unfold add_item. fold (date_key_of fromtimestamp it).
  destruct (dict_get (date_key_of fromtimestamp it) d) as [b |] eqn:E.
  - rewrite E. simpl. eexists. split; [reflexivity |]. split; [| split].
    + apply dict_set_NoDup.
    + apply dict_get_set_eq.
    + intros k Hk. apply dict_get_set_neq. exact Hk.
  - rewrite dict_get_set_eq. simpl. eexists. split; [reflexivity |].
    split; [| split].
    + intros H. apply dict_set_NoDup, dict_set_NoDup, H.
    + apply dict_get_set_eq.
    + intros k Hk. rewrite !dict_get_set_neq by exact Hk. reflexivity.
Qed.

(** The loop never raises.  After it, the bucket of a date holds the
    samples of that date in input order, on top of what the bucket held
    before; a date without a bucket and without a sample has none. *)
Lemma group_items_get (l : list item) (d : list (string * bucket)) :
  exists d',
    group_items fromtimestamp d l = Some d' /\
    (NoDup (dict_keys d) -> NoDup (dict_keys d')) /\
    forall k,
      dict_get k d' =
      match dict_get k d with
      | Some b => Some (fill b (samples_on fromtimestamp k l))
      | None => bucket_of fromtimestamp l k
      end.
Proof.
  revert d. induction l as [| it r IH]; intros d.
  - exists d. split; [reflexivity |]. split; [auto |].
    intros k. unfold bucket_of. simpl.
    destruct (dict_get k d); reflexivity.
  - destruct (add_item_get d it) as (d1 & Hadd & Hnd1 & Hsame & Hother).
    destruct (IH d1) as (d' & Hgrp & Hnd' & Hget).
    exists d'. split; [| split].
    + simpl. rewrite Hadd. simpl. exact Hgrp.
    + auto.
    + intros k. rewrite Hget.
      destruct (string_dec k (date_key_of fromtimestamp it)) as [-> | Hne].
      * rewrite Hsame. unfold bucket_of.
        rewrite samples_on_cons_eq.
        destruct (dict_get (date_key_of fromtimestamp it) d); reflexivity.
      * rewrite (Hother k Hne). unfold bucket_of.
        rewrite (samples_on_cons_neq k it r Hne). reflexivity.
Qed.

Lemma bucket_of_Some (l : list item) (k : string) (b : bucket) :
  bucket_of fromtimestamp l k = Some b ->
  exists it r,
    samples_on fromtimestamp k l = it :: r /\
    b = fill (new_bucket (fromtimestamp (i_dt it))) (it :: r).
Proof.
  unfold bucket_of. destruct (samples_on fromtimestamp k l) as [| it r]; [discriminate |].
  intros [= <-]. exists it, r. split; reflexivity.
Qed.

Lemma bucket_of_None (l : list item) (k : string) :
  bucket_of fromtimestamp l k = None <-> samples_on fromtimestamp k l = [].
Proof.
  unfold bucket_of. destruct (samples_on fromtimestamp k l); split; congruence.
Qed.

End GroupingFacts.

Lemma fill_fields (l : list item) (b : bucket) :
  temps (fill b l) = (temps b ++ map i_temp l)%list /\
  conditions (fill b l) = (conditions b ++ map i_condition l)%list /\
  rain_prob (fill b l) = (rain_prob b ++ map pop_or_zero l)%list /\
  humidity (fill b l) = (humidity b ++ map i_humidity l)%list /\
  wind (fill b l) = (wind b ++ map i_wind l)%list /\
  date (fill b l) = date b.
Proof.
  revert b. induction l as [| it r IH]; intros b.
  - simpl. rewrite !app_nil_r. repeat split.
  - unfold fill in *. simpl.
    destruct (IH (bucket_append b it)) as (H1 & H2 & H3 & H4 & H5 & H6).
    rewrite H1, H2, H3, H4, H5, H6. simpl.
    rewrite <- !app_assoc. repeat split.
Qed.

(** ** Sorting the date keys *)

Lemma string_compare_le_trans (a b c : string) :
  String.compare a b <> Gt -> String.compare b c <> Gt ->
  String.compare a c <> Gt.
Proof.
  revert b c. induction a as [| x a IH]; intros [| y b] [| z c]; simpl;
    try congruence.
  unfold Ascii.compare.
  destruct (N.compare_spec (N_of_ascii x) (N_of_ascii y)) as [Hxy | Hxy | Hxy],
           (N.compare_spec (N_of_ascii y) (N_of_ascii z)) as [Hyz | Hyz | Hyz],
           (N.compare_spec (N_of_ascii x) (N_of_ascii z)) as [Hxz | Hxz | Hxz];
    try congruence; try (exfalso; lia).
  apply IH.
Qed.

Lemma string_leb_trans (a b c : string) :
  String.leb a b = true -> String.leb b c = true -> String.leb a c = true.
Proof.
  unfold String.leb. intros Hab Hbc.
  pose proof (string_compare_le_trans a b c) as H.
  destruct (String.compare a b), (String.compare b c), (String.compare a c);
    try reflexivity; try discriminate; exfalso; apply H; congruence.
Qed.

Lemma string_leb_neq_ltb (a b : string) :
  String.leb a b = true -> a <> b -> String.ltb a b = true.
Proof.
  unfold String.leb, String.ltb. intros Hle Hne.
  destruct (String.compare a b) eqn:E; try reflexivity; try discriminate.
  apply String.compare_eq_iff in E. contradiction.
Qed.

Lemma strictly_sorted (l : list string) :
  StronglySorted (fun a b => is_true (String.leb a b)) l -> NoDup l ->
  StronglySorted str_lt l.
Proof.
  induction 1 as [| a r Hr IH Hall]; intros Hnd; constructor.
  - apply IH. inversion Hnd; assumption.
  - inversion Hnd as [| ? ? Hnotin _]; subst.
    rewrite Forall_forall in *. intros x Hx.
    apply string_leb_neq_ltb; [apply Hall; exact Hx |].
    intros ->. contradiction.
Qed.

(** [sorted] of distinct strings: the same strings, strictly ascending. *)
Lemma sorted_strict (l : list string) :
  NoDup l ->
  StronglySorted str_lt (sorted l) /\ forall k, In k (sorted l) <-> In k l.
Proof.
  intros Hnd. unfold sorted.
  pose proof (StringSort.Permuted_sort l) as Hperm.
  split.
  - apply strictly_sorted.
    + apply StringSort.StronglySorted_sort.
      intros a b c. unfold is_true. apply string_leb_trans.
    + eapply Permutation_NoDup; eassumption.
  - intros k. split; intros H.
    + eapply Permutation_in; [apply Permutation_sym; exact Hperm | exact H].
    + eapply Permutation_in; [exact Hperm | exact H].
Qed.

Lemma firstn_In {A : Type} (n : nat) (l : list A) (x : A) :
  In x (firstn n l) -> In x l.
Proof.
  intros H. rewrite <- (firstn_skipn n l). apply in_or_app. left. exact H.
Qed.

Lemma StronglySorted_firstn {A : Type} (R : A -> A -> Prop) (n : nat) (l : list A) :
  StronglySorted R l -> StronglySorted R (firstn n l).
Proof.
  intros H. revert n. induction H as [| a r Hr IH Hall]; intros [| n]; simpl;
    constructor.
  - apply IH.
  - rewrite Forall_forall in *. intros x Hx. apply Hall.
    eapply firstn_In. exact Hx.
Qed.

Lemma for_each_Forall2 {A B : Type} (f : A -> option B) (l : list A) :
  (forall x, In x l -> exists y, f x = Some y) ->
  exists ys, for_each f l = Some ys /\ Forall2 (fun x y => f x = Some y) l ys.
Proof.
  induction l as [| x r IH]; intros H.
  - exists []. split; [reflexivity | constructor].
  - destruct (H x (or_introl eq_refl)) as (y & Hy).
    destruct IH as (ys & Hys & Hall); [intros z Hz; apply H; right; exact Hz |].
    exists (y :: ys). split.
    + simpl. rewrite Hy. simpl. rewrite Hys. reflexivity.
    + constructor; assumption.
Qed.

(** ** The display loop *)

Section AggregatorFacts.

Variable fromtimestamp : Z -> datetime.
Variable set_iter : list string -> list string.
Hypothesis set_iter_set : set_semantics set_iter.

(** A bucket filled from at least one sample is displayed without an
    exception, and its card shows what [max], [min], [sum] and [len] give on
    the samples' readings. *)
Lemma render_day_card (temp_unit : string) (dt : datetime) (S : list item) :
  S <> [] ->
  exists c,
    render_day set_iter temp_unit (fill (new_bucket dt) S) = Some c /\
    card_date c = dt /\
    card_unit c = temp_unit /\
    dominant_condition set_iter (map i_condition S) = Some (card_condition c) /\
    py_max (map i_temp S) = Some (card_high c) /\
    py_min (map i_temp S) = Some (card_low c) /\
    (exists m, py_max (map pop_or_zero S) = Some m /\ card_rain c = m * 100) /\
    card_wind c = py_sum (map i_wind S) / inject_Z (Z.of_nat (List.length S)).
Proof.
  intros HS.
  destruct (fill_fields S (new_bucket dt)) as (Ht & Hc & Hr & _ & Hw & Hd).
  simpl in Ht, Hc, Hr, Hw, Hd.
  assert (Hmap : forall (B : Type) (f : item -> B), map f S <> [])
    by (intros B f; destruct S; [congruence | discriminate]).
  destruct (dominant_condition_mode set_iter (map i_condition S) set_iter_set
              (Hmap _ _)) as (c & Hdom & _).
  destruct (py_max_spec (map i_temp S) (Hmap _ _)) as (hi & Hhi & _).
  destruct (py_min_spec (map i_temp S) (Hmap _ _)) as (lo & Hlo & _).
  destruct (py_max_spec (map pop_or_zero S) (Hmap _ _)) as (rp & Hrp & _).
  unfold render_day. rewrite Ht, Hc, Hr, Hw, Hd.
  rewrite Hdom, Hhi, Hlo, Hrp. cbn [bind].
  rewrite length_map.
  destruct S as [| it r]; [congruence |]. cbn [List.length py_div bind].
  eexists. split; [reflexivity |]. cbn.
  repeat split; try reflexivity.
  exists rp. split; reflexivity.
Qed.

(** The whole of [render_daily_forecast]: it never raises; the dates shown
    are the first seven of the strictly ascending list of the date keys of
    the input, and the card of a date is the card of the samples of that
    date. *)
Lemma render_daily_forecast_cards (l : list item) (units : string) :
  exists cards keys,
    render_daily_forecast fromtimestamp set_iter l units = Some cards /\
    StronglySorted str_lt keys /\
    (forall k, In k keys <->
               exists it, In it l /\ date_key_of fromtimestamp it = k) /\
    Forall2
      (fun k c =>
         exists it r,
           samples_on fromtimestamp k l = it :: r /\
           render_day set_iter
             (if String.eqb units "metric"
              then Icons.degree ++ "C" else Icons.degree ++ "F")
             (fill (new_bucket (fromtimestamp (i_dt it))) (it :: r)) = Some c)
      (firstn 7 keys) cards.
Proof.
  destruct (group_items_get fromtimestamp l []) as (d & Hgrp & Hnd & Hget).
  specialize (Hnd (NoDup_nil _)). simpl in Hget.
  destruct (sorted_strict (dict_keys d) Hnd) as [Hsorted Hin].
  assert (Hkeys : forall k, In k (sorted (dict_keys d)) <->
                            exists it, In it l /\ date_key_of fromtimestamp it = k).
  { intros k. rewrite Hin, dict_keys_In, Hget. split.
    - intros H. destruct (bucket_of fromtimestamp l k) as [b |] eqn:E; [| congruence].
      apply bucket_of_Some in E. destruct E as (it & r & Hs & _).
      exists it. apply (samples_on_In fromtimestamp k l it).
      rewrite Hs. left; reflexivity.
    - intros (it & Hit) H. apply bucket_of_None in H.
      apply (samples_on_In fromtimestamp k l it) in Hit.
      rewrite H in Hit. exact Hit. }
  set (temp_unit := if String.eqb units "metric"
                    then Icons.degree ++ "C" else Icons.degree ++ "F").
  set (body := fun date_key : string =>
                 b <- dict_get date_key d ;; render_day set_iter temp_unit b).
  assert (Hbody : forall k, In k (firstn 7 (sorted (dict_keys d))) ->
                            exists c, body k = Some c).
  { intros k Hk. apply firstn_In, Hkeys in Hk. destruct Hk as (it & Hit).
    apply (samples_on_In fromtimestamp k l it) in Hit.
    unfold body. rewrite Hget. unfold bucket_of.
    destruct (samples_on fromtimestamp k l) as [| it0 r] eqn:Hs; [destruct Hit |].
    cbn [bind].
    destruct (render_day_card temp_unit (fromtimestamp (i_dt it0)) (it0 :: r))
      as (c & Hc & _); [discriminate |].
    exists c. exact Hc. }
  destruct (for_each_Forall2 body _ Hbody) as (cards & Hcards & Hall).
  exists cards, (sorted (dict_keys d)).
  split; [| split; [exact Hsorted | split; [exact Hkeys |]]].
  - unfold render_daily_forecast. rewrite Hgrp. cbn [bind]. exact Hcards.
  - eapply Forall2_impl; [| exact Hall].
    intros k c Hkc. unfold body in Hkc. rewrite Hget in Hkc.
    destruct (bucket_of fromtimestamp l k) as [b |] eqn:E; [| discriminate].
    apply bucket_of_Some in E. destruct E as (it & r & Hs & ->).
    exists it, r. split; [exact Hs | exact Hkc].
Qed.

End AggregatorFacts.

(** ** Date keys and calendar order *)

Lemma digit_compare (p q : Z) :
  (0 <= p < 10)%Z -> (0 <= q < 10)%Z ->
  Ascii.compare (digit p) (digit q) = Z.compare p q.
Proof.
  intros Hp Hq.
  assert (p = 0 \/ p = 1 \/ p = 2 \/ p = 3 \/ p = 4 \/ p = 5 \/ p = 6 \/ p = 7 \/
          p = 8 \/ p = 9)%Z as Hp' by lia.
  assert (q = 0 \/ q = 1 \/ q = 2 \/ q = 3 \/ q = 4 \/ q = 5 \/ q = 6 \/ q = 7 \/
          q = 8 \/ q = 9)%Z as Hq' by lia.
  repeat (destruct Hp' as [-> | Hp'];
          [repeat (destruct Hq' as [-> | Hq']; [reflexivity |]);
           subst; reflexivity |]).
  subst. repeat (destruct Hq' as [-> | Hq']; [reflexivity |]); subst; reflexivity.
Qed.

Lemma digit_mod (n : Z) : digit n = digit (n mod 10).
Proof. unfold digit. rewrite Z.mod_mod by lia. reflexivity. Qed.

Lemma four_digits (n : Z) :
  (0 <= n <= 9999)%Z ->
  (n = 1000 * ((n / 1000) mod 10) + 100 * ((n / 100) mod 10)
       + 10 * ((n / 10) mod 10) + n mod 10)%Z.
Proof. intros H. Z.to_euclidean_division_equations. lia. Qed.

Lemma two_digits (n : Z) :
  (0 <= n <= 99)%Z -> (n = 10 * ((n / 10) mod 10) + n mod 10)%Z.
Proof. intros H. Z.to_euclidean_division_equations. lia. Qed.

Ltac name_digit t :=
  let x := fresh "x" in
  let Hx := fresh "Hx" in
  pose proof (Z.mod_pos_bound t 10 eq_refl) as Hx;
  generalize dependent (t mod 10)%Z; intros x Hx.

(** Date keys of four-digit years compare as the dates do. *)
Lemma strftime_compare (a b : datetime) :
  valid_date a -> valid_date b ->
  String.compare (strftime_ymd a) (strftime_ymd b) = Z.compare (ymd a) (ymd b).
Proof.
  intros (Hy & Hm & Hd) (Hy' & Hm' & Hd').
  unfold strftime_ymd, pad4, pad2, ymd. cbn [append String.compare].
  rewrite (digit_mod (year a / 1000)), (digit_mod (year a / 100)),
    (digit_mod (year a / 10)), (digit_mod (year a)).
  rewrite (digit_mod (year b / 1000)), (digit_mod (year b / 100)),
    (digit_mod (year b / 10)), (digit_mod (year b)).
  rewrite (digit_mod (month a / 10)), (digit_mod (month a)),
    (digit_mod (month b / 10)), (digit_mod (month b)).
  rewrite (digit_mod (day a / 10)), (digit_mod (day a)),
    (digit_mod (day b / 10)), (digit_mod (day b)).
  rewrite !digit_compare by (apply Z.mod_pos_bound; lia).
  change (Ascii.compare "-" "-") with Eq. cbv iota.
  rewrite (four_digits (year a)) at 5 by lia.
  rewrite (four_digits (year b)) at 5 by lia.
  rewrite (two_digits (month a)) at 3 by lia.
  rewrite (two_digits (month b)) at 3 by lia.
  rewrite (two_digits (day a)) at 3 by lia.
  rewrite (two_digits (day b)) at 3 by lia.
  name_digit (year a / 1000)%Z. name_digit (year a / 100)%Z.
  name_digit (year a / 10)%Z. name_digit (year a).
  name_digit (year b / 1000)%Z. name_digit (year b / 100)%Z.
  name_digit (year b / 10)%Z. name_digit (year b).
  name_digit (month a / 10)%Z. name_digit (month a).
  name_digit (month b / 10)%Z. name_digit (month b).
  name_digit (day a / 10)%Z. name_digit (day a).
  name_digit (day b / 10)%Z. name_digit (day b).
  repeat match goal with
  | |- match (?p ?= ?q)%Z with _ => _ end = _ =>
      destruct (Z.compare_spec p q);
      [ subst
      | symmetry; apply Z.compare_lt_iff; lia
      | symmetry; apply Z.compare_gt_iff; lia ]
  end.
  symmetry. apply Z.compare_refl.
Qed.

Lemma string_compare_refl (s : string) : String.compare s s = Eq.
Proof.
  induction s as [| c s IH]; simpl; [reflexivity |].
  unfold Ascii.compare. rewrite N.compare_refl. exact IH.
Qed.

Lemma ymd_lt (a b : datetime) :
  valid_date a -> valid_date b -> ((ymd a < ymd b)%Z <-> date_lt a b).
Proof.
  intros (Hy & Hm & Hd) (Hy' & Hm' & Hd'). unfold ymd, date_lt. lia.
Qed.

Lemma ymd_eq (a b : datetime) :
  valid_date a -> valid_date b -> (ymd a = ymd b <-> same_date a b).
Proof.
  intros (Hy & Hm & Hd) (Hy' & Hm' & Hd'). unfold ymd, same_date. lia.
Qed.

Lemma date_key_lt (a b : datetime) :
  valid_date a -> valid_date b ->
  (str_lt (strftime_ymd a) (strftime_ymd b) <-> date_lt a b).
Proof.
  intros Ha Hb. rewrite <- (ymd_lt a b Ha Hb).
  unfold str_lt, String.ltb. rewrite (strftime_compare a b Ha Hb).
  rewrite <- Z.compare_lt_iff.
  destruct (ymd a ?= ymd b)%Z; split; congruence.
Qed.

Lemma same_date_key (a b : datetime) :
  same_date a b -> strftime_ymd a = strftime_ymd b.
Proof.
  intros (Hy & Hm & Hd). unfold strftime_ymd. rewrite Hy, Hm, Hd. reflexivity.
Qed.

Lemma date_key_eq (a b : datetime) :
  valid_date a -> valid_date b ->
  (strftime_ymd a = strftime_ymd b <-> same_date a b).
Proof.
  intros Ha Hb. split; [| apply same_date_key].
  intros H. apply (ymd_eq a b Ha Hb). apply Z.compare_eq_iff.
  rewrite <- (strftime_compare a b Ha Hb), H. apply string_compare_refl.
Qed.

Lemma str_lt_irrefl (a : string) : ~ str_lt a a.
Proof.
  unfold str_lt, String.ltb.
  rewrite string_compare_refl. discriminate.
Qed.

Lemma StronglySorted_app_lt {A : Type} (R : A -> A -> Prop) (l1 l2 : list A) :
  StronglySorted R (l1 ++ l2) ->
  forall x y, In x l1 -> In y l2 -> R x y.
Proof.
  induction l1 as [| a l1 IH]; simpl; intros H x y Hx Hy; [destruct Hx |].
  inversion H as [| ? ? Hrest Hall]; subst.
  destruct Hx as [<- | Hx].
  - rewrite Forall_forall in Hall. apply Hall. apply in_or_app. right. exact Hy.
  - apply IH; assumption.
Qed.

(** ** The cards of the daily forecast *)

Section ForecastFacts.

Variable fromtimestamp : Z -> datetime.
Variable set_iter : list string -> list string.
Hypothesis set_iter_set : set_semantics set_iter.

(** The forecast is rendered without an exception.  The dates of the cards
    are the first seven of the ascending date keys of the input, and each
    card is computed from the samples of its date. *)
Lemma render_daily_forecast_shown (l : list item) (units : string) :
  exists cards keys,
    render_daily_forecast fromtimestamp set_iter l units = Some cards /\
    StronglySorted str_lt keys /\
    (forall k, In k keys <->
               exists it, In it l /\ date_key_of fromtimestamp it = k) /\
    map card_key cards = firstn 7 keys /\
    Forall
      (fun c =>
         exists it r,
           samples_on fromtimestamp (card_key c) l = it :: r /\
           card_of_samples set_iter (fromtimestamp (i_dt it)) (it :: r) c)
      cards.
Proof.
  destruct (render_daily_forecast_cards fromtimestamp set_iter set_iter_set l units)
    as (cards & keys & Hr & Hsorted & Hkeys & Hall).
  exists cards, keys.
  split; [exact Hr | split; [exact Hsorted | split; [exact Hkeys |]]].
  assert (Hcard : Forall2
            (fun k c =>
               card_key c = k /\
               exists it r,
                 samples_on fromtimestamp (card_key c) l = it :: r /\
                 card_of_samples set_iter (fromtimestamp (i_dt it)) (it :: r) c)
            (firstn 7 keys) cards).
  { eapply Forall2_impl; [| exact Hall].
    intros k c (it & r & Hs & Hc).
    destruct (render_day_card set_iter set_iter_set
                (if String.eqb units "metric"
                 then Icons.degree ++ "C" else Icons.degree ++ "F")
                (fromtimestamp (i_dt it)) (it :: r))
      as (c' & Hc' & Hdate & _ & Hrest); [discriminate |].
    rewrite Hc in Hc'. injection Hc' as <-.
    assert (Hk : card_key c = k).
    { unfold card_key. rewrite Hdate.
      apply (samples_on_In fromtimestamp k l it). rewrite Hs. left; reflexivity. }
    split; [exact Hk |]. rewrite Hk. exists it, r.
    split; [exact Hs |]. split; [exact Hdate | exact Hrest]. }
  clear Hall Hr. revert Hcard. generalize (firstn 7 keys) as ks. intros ks Hcard.
  induction Hcard as [| k c ks cs [Hk Hc] _ [IHm IHf]].
  - split; constructor.
  - split; [simpl; rewrite Hk, IHm; reflexivity | constructor; assumption].
Qed.

End ForecastFacts.

(** C7.  On an empty forecast list the aggregation raises nothing (no
    [KeyError], no [max] of an empty sequence, no division by zero) and
    shows no day at all, whatever the time zone, the set order and the
    units. *)
Theorem empty_forecast_no_cards
    (fromtimestamp : Z -> datetime) (set_iter : list string -> list string)
    (units : string) :
  group_items fromtimestamp [] [] = Some [] /\
  render_daily_forecast fromtimestamp set_iter [] units = Some [].
Proof.
  split; reflexivity.
Qed.

(** C1, as the code has it.  The forecast is rendered, and the condition
    shown for a day is a code of that day with the highest frequency; among
    several codes with the highest frequency it is the one that comes first
    when the set of the day's codes is iterated. *)
Theorem dominant_condition_first_in_set_order
    (fromtimestamp : Z -> datetime) (set_iter : list string -> list string)
    (l : list item) (units : string) :
  set_semantics set_iter ->
  exists cards,
    render_daily_forecast fromtimestamp set_iter l units = Some cards /\
    Forall (dominant_of_day fromtimestamp set_iter l) cards.
Proof.
  intros Hset.
  destruct (render_daily_forecast_shown fromtimestamp set_iter Hset l units)
    as (cards & keys & Hr & _ & _ & _ & Hall).
  exists cards. split; [exact Hr |].
  eapply Forall_impl; [| exact Hall].
  intros c (it & r & Hs & _ & Hdom & _).
  unfold dominant_of_day. rewrite Hs.
  destruct (dominant_condition_mode set_iter (map i_condition (it :: r)) Hset)
    as (c0 & Hc0 & Hin & Hmax & Hfirst); [discriminate |].
  rewrite Hdom in Hc0. injection Hc0 as <-.
  split; [exact Hin | split; [exact Hmax | exact Hfirst]].
Qed.

Lemma dominant_condition_first_in_set_order_witness :
  exists cards,
    render_daily_forecast utc_fromtimestamp first_seen_order one_day_forecast
      "metric" = Some cards /\
    Forall (dominant_of_day utc_fromtimestamp first_seen_order one_day_forecast)
      cards.
Proof.
  apply (dominant_condition_first_in_set_order utc_fromtimestamp
           first_seen_order one_day_forecast "metric").
  exact first_seen_order_set.
Defined.

(** C1, counterexample.  A day with one "Rain" sample followed by one
    "Clear" sample, the two codes tied at one occurrence each, and a set
    that is iterated with "Clear" first: the aggregation shows "Clear",
    where the first code met in the bucket is "Rain". *)
Lemma dominant_condition_not_first_seen :
  set_semantics last_seen_order /\
  map i_condition tied_forecast = ["Rain"; "Clear"] /\
  last_seen_order ["Rain"; "Clear"] = ["Clear"; "Rain"] /\
  option_map (map card_condition)
    (render_daily_forecast utc_fromtimestamp last_seen_order tied_forecast
       "metric") = Some ["Clear"] /\
  first_seen_dominant ["Rain"; "Clear"] = Some "Rain".
Proof.
  split; [exact last_seen_order_set |].
  repeat split; vm_compute; reflexivity.
Qed.

(** ** The daily summary *)

Lemma py_max_is_max (l : list Q) (m : Q) : py_max l = Some m -> is_max m l.
Proof.
  intros H. destruct l as [| x r]; [discriminate |].
  destruct (py_max_spec (x :: r)) as (m' & Hm' & Hmax); [discriminate |].
  rewrite H in Hm'. injection Hm' as <-. exact Hmax.
Qed.

Lemma py_min_is_min (l : list Q) (m : Q) : py_min l = Some m -> is_min m l.
Proof.
  intros H. destruct l as [| x r]; [discriminate |].
  destruct (py_min_spec (x :: r)) as (m' & Hm' & Hmin); [discriminate |].
  rewrite H in Hm'. injection Hm' as <-. exact Hmin.
Qed.

Lemma StronglySorted_map_inv {A B : Type} (f : A -> B) (R : B -> B -> Prop)
    (R' : A -> A -> Prop) (l : list A) :
  (forall x y, In x l -> In y l -> R (f x) (f y) -> R' x y) ->
  StronglySorted R (map f l) -> StronglySorted R' l.
Proof.
  induction l as [| a r IH]; intros Himp H; [constructor |].
  simpl in H. inversion H as [| ? ? Hr Hall]; subst. constructor.
  - apply IH; [| exact Hr]. intros x y Hx Hy. apply Himp; right; assumption.
  - rewrite Forall_forall in *. intros y Hy.
    apply Himp; [left; reflexivity | right; exact Hy |].
    apply Hall. apply in_map. exact Hy.
Qed.

Lemma strictly_sorted_constant (k0 : string) (keys : list string) :
  StronglySorted str_lt keys -> (forall k, In k keys -> k = k0) ->
  (List.length keys <= 1)%nat.
Proof.
  intros Hs Hall. destruct keys as [| a [| b r]]; simpl; try lia.
  exfalso. inversion Hs as [| ? ? _ Hlt]; subst.
  rewrite Forall_forall in Hlt.
  specialize (Hlt b (or_introl eq_refl)).
  rewrite (Hall a), (Hall b) in Hlt by (simpl; auto).
  exact (str_lt_irrefl k0 Hlt).
Qed.

Section SummaryFacts.

Variable fromtimestamp : Z -> datetime.
Variable set_iter : list string -> list string.
Variable l : list item.
Hypothesis set_iter_set : set_semantics set_iter.
Hypothesis dates_valid :
  forall it, In it l -> valid_date (fromtimestamp (i_dt it)).

Lemma card_day_summary (c : card) :
  (exists it r,
      samples_on fromtimestamp (card_key c) l = it :: r /\
      card_of_samples set_iter (fromtimestamp (i_dt it)) (it :: r) c) ->
  valid_date (card_date c) /\ day_summary fromtimestamp l c.
Proof.
  intros (it & r & Hs & Hdate & _ & Hhi & Hlo & (m & Hm & Hrain) & Hwind).
  assert (Hit : In it l /\ date_key_of fromtimestamp it = card_key c).
  { apply (samples_on_In fromtimestamp (card_key c) l it).
    rewrite Hs. left; reflexivity. }
  assert (Hvalid : valid_date (card_date c)).
  { rewrite Hdate. apply dates_valid. apply Hit. }
  split; [exact Hvalid |].
  unfold day_summary. rewrite Hs.
  apply py_max_is_max in Hhi, Hm. apply py_min_is_min in Hlo.
  split; [discriminate |]. split; [| split; [exact Hhi | split; [exact Hlo |]]].
  - intros x. rewrite <- Hs.
    rewrite (samples_on_In fromtimestamp (card_key c) l x).
    split; intros [Hx Hk]; (split; [exact Hx |]).
    + apply date_key_eq; [apply dates_valid; exact Hx | exact Hvalid | exact Hk].
    + apply same_date_key. exact Hk.
  - split; [exists m; split; assumption |]. split; [exact Hwind |]. split.
    + destruct Hhi as [Hin _]. destruct Hlo as [_ Hle]. apply Hle. exact Hin.
    + intros Hlen. destruct r; [| discriminate].
      destruct Hhi as [[<- | []] _]. destruct Hlo as [[<- | []] _]. reflexivity.
Qed.

End SummaryFacts.



(** ** Moon phase *)

Lemma phase_idx_units (now : datetime) :
  phase_idx now = ((8 * (lunation_units now mod 885900)) / 885900)%Z.
Proof.
  remember ((8 * (lunation_units now mod 885900)) / 885900)%Z as R eqn:HR.
  unfold phase_idx, moon_age, py_mod, py_int, lunation.
  unfold Qdiv, Qminus, Qplus, Qmult, Qopp, Qinv, inject_Z, Qfloor. cbn.
  subst R. unfold lunation_units.
  Z.to_euclidean_division_equations; lia.
Qed.

Lemma lunation_as_units (now : datetime) :
  lunation now == lunation_units now # 30000.
Proof.
  unfold lunation, lunation_units, Qeq, Qdiv, Qplus, Qmult, Qinv, inject_Z.
  cbn [Qnum Qden]. lia.
Qed.

Lemma phase_idx_range (now : datetime) : (0 <= phase_idx now < 8)%Z.
Proof.
  rewrite phase_idx_units. Z.to_euclidean_division_equations; lia.
Qed.

(** A shift of the lunation by less than one bucket keeps the phase or
    moves it to the next one, round the cycle. *)
Lemma phase_idx_shift (a b : datetime) :
  (0 <= lunation_units b - lunation_units a < 110737)%Z ->
  phase_idx b = phase_idx a \/ phase_idx b = ((phase_idx a + 1) mod 8)%Z.
Proof.
  intros H. rewrite !phase_idx_units.
  generalize dependent (lunation_units b). generalize (lunation_units a).
  intros x y H. Z.to_euclidean_division_equations; lia.
Qed.

Lemma advance_md_add_days (y : Z) (n : nat) :
  forall (carried : bool) (m d h mi s : Z) (carried' : bool) (m' d' : Z),
    advance_md (is_leap y) (is_leap (y + 1)) n carried m d
      = Some (carried', m', d') ->
    add_days n {| year := (if carried then y + 1 else y)%Z; month := m; day := d;
                  hour := h; minute := mi; second := s |}
    = {| year := (if carried' then y + 1 else y)%Z; month := m'; day := d';
         hour := h; minute := mi; second := s |}.
Proof.
  induction n as [| k IH]; intros carried m d h mi s carried' m' d' H.
  - simpl in H. injection H as -> -> ->. reflexivity.
  - cbn [advance_md] in H. cbn [add_days]. unfold next_day. cbn [year month day hour minute second].
    assert (Hleap : is_leap (if carried then (y + 1)%Z else y)
                    = if carried then is_leap (y + 1) else is_leap y)
      by (destruct carried; reflexivity).
    rewrite Hleap.
    destruct (next_md (if carried then is_leap (y + 1) else is_leap y) m d)
      as [[carry m1] d1].
    destruct carry, carried; cbn [andb orb] in H; try discriminate;
      apply (IH _ _ _ h mi s) in H; exact H.
Qed.

Lemma all_shifts_checked : all_shifts_in_range = true.
Proof. vm_compute. reflexivity. Qed.

Lemma shift_in_range_calendar (leap0 leap1 : bool) (n : nat) (m d : Z) :
  (n = 29 \/ n = 30)%nat ->
  (1 <= m <= 12)%Z -> (1 <= d <= days_in_month leap0 m)%Z ->
  shift_in_range leap0 leap1 n m d = true.
Proof.
  intros Hn Hm Hd.
  assert (Hbool : forall b : bool, In b [false; true])
    by (intros [|]; simpl; auto).
  assert (Hdim : (days_in_month leap0 m <= 31)%Z).
  { unfold days_in_month.
    destruct (m =? 2)%Z, leap0,
      ((m =? 4) || (m =? 6) || (m =? 9) || (m =? 11))%Z; lia. }
  assert (Hn' : In n [29; 30]%nat) by (destruct Hn as [-> | ->]; simpl; auto).
  assert (Hm' : In (Z.to_nat m) (seq 1 12)) by (apply in_seq; lia).
  assert (Hd' : In (Z.to_nat d) (seq 1 31)) by (apply in_seq; lia).
  pose proof all_shifts_checked as H0. unfold all_shifts_in_range in H0.
  pose proof (proj1 (forallb_forall _ _) H0 leap0 (Hbool leap0)) as H1.
  pose proof (proj1 (forallb_forall _ _) H1 leap1 (Hbool leap1)) as H2.
  pose proof (proj1 (forallb_forall _ _) H2 n Hn') as H3.
  pose proof (proj1 (forallb_forall _ _) H3 _ Hm') as H4.
  pose proof (proj1 (forallb_forall _ _) H4 _ Hd') as H5.
  cbv beta in H5. rewrite !Z2Nat.id in H5 by lia.
  assert (Hle : (d <=? days_in_month leap0 m)%Z = true) by (apply Z.leb_le; lia).
  rewrite Hle in H5. exact H5.
Qed.

(** One synodic period on, in whole days, the lunation has grown by between
    28/30 (from the 31st of March to the 29th of April, say) and
    1.3685 - 1/30 (from December into January), in units of 1/30000. *)
Lemma lunation_shift (now : datetime) (n : nat) :
  calendar_date now -> (n = 29 \/ n = 30)%nat ->
  (28000 <= lunation_units (add_days n now) - lunation_units now <= 40055)%Z.
Proof.
  intros [Hm Hd] Hn.
  pose proof (shift_in_range_calendar (is_leap (year now))
                (is_leap (year now + 1)) n (month now) (day now) Hn Hm Hd) as H.
  unfold shift_in_range, units_shift in H.
  destruct (advance_md (is_leap (year now)) (is_leap (year now + 1)) n false
              (month now) (day now)) as [[[carried m'] d'] |] eqn:E;
    [| discriminate].
  apply andb_true_iff in H. destruct H as [H1 H2].
  apply Z.leb_le in H1, H2.
  destruct now as [y m d h mi s]. cbn [year month day] in *.
  apply (advance_md_add_days y n false m d h mi s) in E.
  cbn [year] in E. rewrite E. unfold lunation_units. cbn [year month day].
  destruct carried; lia.
Qed.



(** * Further properties of the page *)

(** ** The classifiers are monotone *)

Lemma nth_error_unique {A : Type} (l : list A) (i j : nat) (x : A) :
  NoDup l -> nth_error l i = Some x -> nth_error l j = Some x -> i = j.
Proof.
  intros Hnd Hi Hj.
  apply (proj1 (NoDup_nth_error l) Hnd).
  - apply nth_error_Some. congruence.
  - congruence.
Qed.

Lemma clothing_band_monotone (t1 t2 : Q) (i j : nat) :
  t1 <= t2 -> clothing_band i t1 -> clothing_band j t2 -> (i <= j)%nat.
Proof.
  intros Hle.
  do 6 (destruct i as [|i]; [
    do 6 (destruct j as [|j]; [simpl; intros; solve [lia | lra] |]);
    simpl; intros; contradiction |]).
  simpl; contradiction.
Qed.

(** X1.  The clothing advice is monotone in the temperature: of two
    temperatures the lower one never gets a tier that stands later in the
    list from heavy winter gear to light clothing. *)
Theorem clothing_monotone (t1 t2 : Q) (c1 c2 : string) (i j : nat) :
  t1 <= t2 ->
  nth_error Tier.all i = Some (get_clothing_suggestion t1 c1) ->
  nth_error Tier.all j = Some (get_clothing_suggestion t2 c2) ->
  (i <= j)%nat.
Proof.
  intros Hle Hi Hj.
  destruct (clothing_band_total t1) as [i' Hi'].
  destruct (clothing_band_total t2) as [j' Hj'].
  pose proof (clothing_band_tier t1 c1 i' Hi') as Ei.
  pose proof (clothing_band_tier t2 c2 j' Hj') as Ej.
  rewrite (nth_error_unique Tier.all i i' _ tiers_distinct Hi Ei).
  rewrite (nth_error_unique Tier.all j j' _ tiers_distinct Hj Ej).
  exact (clothing_band_monotone t1 t2 i' j' Hle Hi' Hj').
Qed.

Lemma clothing_monotone_witness : (1 <= 4)%nat.
Proof.
  apply (clothing_monotone 5 22 "Rain" "Clear" 1 4).
  - unfold Qle. simpl. lia.
  - reflexivity.
  - reflexivity.
Defined.

Lemma aqi_band_monotone (a b : Z) (i j : nat) :
  (a <= b)%Z -> aqi_band i a -> aqi_band j b -> (i <= j)%nat.
Proof.
  intros Hle.
  do 6 (destruct i as [|i]; [
    do 6 (destruct j as [|j]; [simpl; intros; lia |]);
    simpl; intros; contradiction |]).
  simpl; contradiction.
Qed.

Lemma uv_band_monotone (u v : Q) (i j : nat) :
  u <= v -> uv_band i u -> uv_band j v -> (i <= j)%nat.
Proof.
  intros Hle.
  do 5 (destruct i as [|i]; [
    do 5 (destruct j as [|j]; [simpl; intros; solve [lia | lra] |]);
    simpl; intros; contradiction |]).
  simpl; contradiction.
Qed.

Lemma aqi_tiers_NoDup : NoDup aqi_tiers.
Proof.
  apply (NoDup_map_inv fst). apply aqi_tiers_distinct.
Qed.

Lemma uv_tiers_NoDup : NoDup uv_tiers.
Proof.
  apply (NoDup_map_inv fst). apply uv_tiers_distinct.
Qed.

(** X2.  The air quality and UV classifiers are monotone: a higher index
    never gets an earlier band of the table. *)
Theorem aqi_uv_monotone :
  (forall (a b : Z) (i j : nat),
      (a <= b)%Z ->
      nth_error aqi_tiers i = Some (get_aqi_info a) ->
      nth_error aqi_tiers j = Some (get_aqi_info b) ->
      (i <= j)%nat) /\
  (forall (u v : Q) (i j : nat),
      u <= v ->
      nth_error uv_tiers i = Some (get_uv_info u) ->
      nth_error uv_tiers j = Some (get_uv_info v) ->
      (i <= j)%nat).
Proof.
  split.
  - intros a b i j Hle Hi Hj.
    destruct (aqi_band_total a) as [i' Hi'].
    destruct (aqi_band_total b) as [j' Hj'].
    rewrite (nth_error_unique aqi_tiers i i' _ aqi_tiers_NoDup Hi
               (aqi_band_tier a i' Hi')).
    rewrite (nth_error_unique aqi_tiers j j' _ aqi_tiers_NoDup Hj
               (aqi_band_tier b j' Hj')).
    exact (aqi_band_monotone a b i' j' Hle Hi' Hj').
  - intros u v i j Hle Hi Hj.
    destruct (uv_band_total u) as [i' Hi'].
    destruct (uv_band_total v) as [j' Hj'].
    rewrite (nth_error_unique uv_tiers i i' _ uv_tiers_NoDup Hi
               (uv_band_tier u i' Hi')).
    rewrite (nth_error_unique uv_tiers j j' _ uv_tiers_NoDup Hj
               (uv_band_tier v j' Hj')).
    exact (uv_band_monotone u v i' j' Hle Hi' Hj').
Qed.

(** ** The UV panel *)

Lemma get_uv_info_low (u : Q) : fst (get_uv_info u) = "Low" <-> u < 3.
Proof.
  unfold get_uv_info. split.
  - split_Qltb; simpl; intros H; try discriminate H; assumption.
  - intros H. apply Qltb_lt in H. rewrite H. reflexivity.
Qed.

(** X3.  In the UV panel the advice agrees with the level: sun protection
    is recommended exactly when the index is 3 or more, which is exactly
    when the level shown is not Low. *)
Theorem uv_protection_iff_not_low (u : Q) :
  exists level color protection,
    uv_panel (Some u) = UvShown u level color protection /\
    (level, color) = get_uv_info u /\
    (protection = true <-> 3 <= u) /\
    (protection = true <-> level <> "Low").
Proof.
  unfold uv_panel. destruct (get_uv_info u) as [level color] eqn:E.
  exists level, color, (Qle_bool 3 u).
  split; [reflexivity | split; [reflexivity |]].
  assert (Hlow : level = "Low" <-> u < 3).
  { rewrite <- get_uv_info_low, E. reflexivity. }
  rewrite Qle_bool_iff. split; [reflexivity |].
  rewrite Hlow. split.
  - intros H Hlt. lra.
  - intros H. destruct (Qlt_le_dec u 3); [contradiction | assumption].
Qed.

Lemma simulated_uv_day (hour : Z) :
  (6 <= hour <= 18)%Z ->
  simulated_uv hour == inject_Z (12 - Z.abs (hour - 12)) * (8 # 10) /\
  24 # 5 <= simulated_uv hour /\ simulated_uv hour <= 48 # 5.
Proof.
  intros H.
  assert (hour = 6 \/ hour = 7 \/ hour = 8 \/ hour = 9 \/ hour = 10 \/
          hour = 11 \/ hour = 12 \/ hour = 13 \/ hour = 14 \/ hour = 15 \/
          hour = 16 \/ hour = 17 \/ hour = 18)%Z as Hh by lia.
  repeat (destruct Hh as [-> | Hh];
          [vm_compute; repeat split; intros; discriminate |]).
  subst. vm_compute; repeat split; intros; discriminate.
Qed.

Lemma simulated_uv_night (hour : Z) :
  ~ (6 <= hour <= 18)%Z -> simulated_uv hour = 0.
Proof.
  intros H. unfold simulated_uv.
  destruct ((6 <=? hour) && (hour <=? 18))%Z eqn:E; [| reflexivity].
  apply andb_true_iff in E. destruct E as [E1 E2].
  apply Z.leb_le in E1, E2. lia.
Qed.


(** ** The air quality panel *)


(** ** Day length *)

Lemma day_length_seconds (sunrise sunset : Z) :
  let seconds := ((sunset - sunrise) mod 86400)%Z in
  let '(hours, minutes) := day_length sunrise sunset in
  (0 <= hours <= 23 /\ 0 <= minutes <= 59 /\
   hours * 3600 + minutes * 60 <= seconds < hours * 3600 + minutes * 60 + 60)%Z.
Proof.
  unfold day_length. cbv zeta.
  generalize (sunset - sunrise)%Z. intros delta.
  Z.to_euclidean_division_equations. lia.
Qed.



(** ** Alerts that exclude each other *)

Lemma freezing_heat_membership (current : current_data) :
  (In Alert.freezing (render_alerts current) <-> cd_temp current < 0) /\
  (In Alert.heat (render_alerts current) <-> 35 < cd_temp current).
Proof.
  destruct (alert_kinds_distinct (cd_condition current))
    as (D1 & D2 & D3 & D4 & D5 & D6).
  rewrite <- !Qltb_lt, render_alerts_concat.
  rewrite !in_app_iff, !in_fired.
  split; split; intros H; intuition congruence.
Qed.

(** X8.  The freezing and the extreme-heat alert never come together, so a
    reading has at most three alerts; and it has none exactly when the
    temperature is from 0 to 35, the wind at most 10 and the condition
    neither Thunderstorm nor Snow. *)
Theorem alerts_at_most_three (current : current_data) :
  ~ (In Alert.freezing (render_alerts current) /\
     In Alert.heat (render_alerts current)) /\
  (List.length (render_alerts current) <= 3)%nat /\
  (render_alerts current = [] <->
   0 <= cd_temp current /\ cd_temp current <= 35 /\
   cd_wind_speed current <= 10 /\
   cd_condition current <> "Thunderstorm" /\ cd_condition current <> "Snow").
Proof.
  pose proof (render_alerts_concat current) as Hcat.
  destruct (freezing_heat_membership current) as (Hfreeze & Hheat).
  split; [| split].
  - intros [H1 H2]. apply Hfreeze in H1. apply Hheat in H2. lra.
  - rewrite Hcat.
    destruct (Qltb (cd_temp current) 0) eqn:E1,
      (Qltb 35 (cd_temp current)) eqn:E2,
      (Qltb 10 (cd_wind_speed current)),
      (str_in (cd_condition current) ["Thunderstorm"; "Snow"]);
      simpl; try lia.
    all: apply Qltb_lt in E1, E2; lra.
  - rewrite Hcat.
    pose proof (str_in_severe (cd_condition current)) as Hsev.
    destruct (Qltb (cd_temp current) 0) eqn:E1,
      (Qltb 35 (cd_temp current)) eqn:E2,
      (Qltb 10 (cd_wind_speed current)) eqn:E3,
      (str_in (cd_condition current) ["Thunderstorm"; "Snow"]) eqn:E4;
      simpl;
      rewrite ?Qltb_lt, ?Qltb_ge in *;
      (split; [intros H; try discriminate H | intros (H1 & H2 & H3 & H4 & H5)]);
      try reflexivity; try (exfalso; lra).
    + exfalso. destruct (proj1 Hsev eq_refl); contradiction.
    + repeat split; try assumption.
      * intros Hc. apply (or_introl (B := cd_condition current = "Snow")) in Hc.
        apply Hsev in Hc. discriminate Hc.
      * intros Hc. apply (or_intror (A := cd_condition current = "Thunderstorm")) in Hc.
        apply Hsev in Hc. discriminate Hc.
Qed.

(** ** Favourite locations *)

Lemma str_in_In (x : string) (l : list string) : str_in x l = true <-> In x l.
Proof.
  unfold str_in. rewrite existsb_exists. split.
  - intros (y & Hy & E). apply String.eqb_eq in E. subst y. exact Hy.
  - intros H. exists x. split; [exact H | apply String.eqb_refl].
Qed.

Lemma list_remove_In (x : string) (l l' : list string) :
  list_remove x l = Some l' ->
  In x l /\ (forall y, In y l' -> In y l) /\
  (forall y, y <> x -> In y l -> In y l').
Proof.
  revert l'. induction l as [| z r IH]; intros l' H; [discriminate |].
  simpl in H. destruct (String.eqb z x) eqn:E.
  - apply String.eqb_eq in E. subst z. injection H as <-.
    split; [left; reflexivity | split].
    + intros y Hy. right. exact Hy.
    + intros y Hne [Hy | Hy]; [congruence | exact Hy].
  - apply String.eqb_neq in E.
    destruct (list_remove x r) as [r' |]; [| discriminate].
    injection H as <-. destruct (IH r' eq_refl) as (Hin & Hsub & Hkeep).
    split; [right; exact Hin | split].
    + intros y [Hy | Hy]; [left; exact Hy | right; apply Hsub; exact Hy].
    + intros y Hne [Hy | Hy]; [left; exact Hy | right; apply Hkeep; assumption].
Qed.

Lemma list_remove_NoDup (x : string) (l l' : list string) :
  NoDup l -> list_remove x l = Some l' -> NoDup l' /\ ~ In x l'.
Proof.
  revert l'. induction l as [| z r IH]; intros l' Hnd H; [discriminate |].
  inversion Hnd as [| ? ? Hz Hr]; subst.
  simpl in H. destruct (String.eqb z x) eqn:E.
  - apply String.eqb_eq in E. subst z. injection H as <-. split; assumption.
  - apply String.eqb_neq in E.
    destruct (list_remove x r) as [r' |] eqn:Er; [| discriminate].
    injection H as <-. destruct (IH r' Hr eq_refl) as (Hnd' & Hx).
    destruct (list_remove_In x r r' Er) as (_ & Hsub & _).
    split.
    + constructor; [| exact Hnd']. intros Hz'. apply Hz, Hsub, Hz'.
    + intros [Hx' | Hx']; [congruence | contradiction].
Qed.

Lemma list_remove_None (x : string) (l : list string) :
  list_remove x l = None <-> ~ In x l.
Proof.
  induction l as [| z r IH]; simpl; [tauto |].
  destruct (String.eqb z x) eqn:E.
  - apply String.eqb_eq in E. split; [discriminate | intros H; exfalso; auto].
  - apply String.eqb_neq in E.
    destruct (list_remove x r); split; intros H; try discriminate; try reflexivity.
    + exfalso. destruct IH as [_ IH]. 
      assert (Hnone : @Some (list string) l = None); [| discriminate].
      apply IH. intros Hx. apply H. right. exact Hx.
    + intros [Hz | Hx]; [congruence |]. apply IH; [reflexivity | exact Hx].
Qed.

(** X9.  The list of favourites never gets a duplicate nor an empty name:
    it starts with three distinct names, the "Add" button keeps the names
    distinct and never adds the empty name, and deleting a favourite from a
    list of distinct names leaves distinct names without the deleted one.
    Deleting raises exactly for a name that is not in the list. *)
Theorem favorites_stay_distinct (favorites : list string) :
  NoDup favorites -> ~ In "" favorites ->
  (NoDup initial_favorites /\ ~ In "" initial_favorites) /\
  (forall new_fav clicked,
      NoDup (add_favorite favorites new_fav clicked) /\
      ~ In "" (add_favorite favorites new_fav clicked)) /\
  (forall fav rest,
      list_remove fav favorites = Some rest ->
      NoDup rest /\ ~ In "" rest /\ ~ In fav rest) /\
  (forall fav, list_remove fav favorites = None <-> ~ In fav favorites).
Proof.
  intros Hnd Hempty. split; [| split; [| split]].
  - split; [unfold initial_favorites; str_nodup | unfold initial_favorites; str_notin].
  - intros new_fav clicked. unfold add_favorite.
    destruct (clicked && negb (String.eqb new_fav "")) eqn:E; [| split; assumption].
    apply andb_true_iff in E. destruct E as [_ E].
    apply negb_true_iff, String.eqb_neq in E.
    destruct (str_in new_fav favorites) eqn:Ein; [split; assumption |].
    assert (Hnot : ~ In new_fav favorites).
    { intros H. apply str_in_In in H. congruence. }
    split.
    + apply NoDup_app; [exact Hnd | repeat constructor; simpl; tauto |].
      intros x Hx [<- | []]. contradiction.
    + intros H. apply in_app_or in H. destruct H as [H | [H | []]]; auto.
  - intros fav rest H.
    destruct (list_remove_NoDup fav favorites rest Hnd H) as (Hnd' & Hgone).
    destruct (list_remove_In fav favorites rest H) as (_ & Hsub & _).
    split; [exact Hnd' | split; [| exact Hgone]].
    intros Hx. apply Hempty, Hsub, Hx.
  - intros fav. apply list_remove_None.
Qed.

Lemma favorites_stay_distinct_witness :
  NoDup (add_favorite initial_favorites "Paris" true) /\
  ~ In "" (add_favorite initial_favorites "Paris" true).
Proof.
  apply (favorites_stay_distinct initial_favorites).
  - unfold initial_favorites. str_nodup.
  - unfold initial_favorites. str_notin.
Defined.

Lemma list_remove_last (x : string) (l : list string) :
  ~ In x l -> list_remove x (l ++ [x]) = Some l.
Proof.
  induction l as [| z r IH]; simpl; intros H.
  - rewrite String.eqb_refl. reflexivity.
  - destruct (String.eqb z x) eqn:E.
    + apply String.eqb_eq in E. exfalso. apply H. left. exact E.
    + rewrite IH; [reflexivity |]. intros Hx. apply H. right. exact Hx.
Qed.

(** X10.  Adding a new, non-empty name and deleting it again gives back the
    list as it was; the name is in the list in between.  Adding a name that
    is already there, adding the empty name, or not clicking, changes
    nothing. *)
Theorem favorites_add_then_remove (favorites : list string) (new_fav : string) :
  (new_fav <> "" -> ~ In new_fav favorites ->
   In new_fav (add_favorite favorites new_fav true) /\
   list_remove new_fav (add_favorite favorites new_fav true) = Some favorites) /\
  (In new_fav favorites ->
   forall clicked, add_favorite favorites new_fav clicked = favorites) /\
  (forall clicked, add_favorite favorites "" clicked = favorites) /\
  add_favorite favorites new_fav false = favorites.
Proof.
  split; [| split; [| split]].
  - intros Hne Hnot. unfold add_favorite.
    apply String.eqb_neq in Hne. rewrite Hne. cbn [andb negb].
    destruct (str_in new_fav favorites) eqn:E.
    + apply str_in_In in E. contradiction.
    + split; [apply in_or_app; right; left; reflexivity |].
      apply list_remove_last. exact Hnot.
  - intros Hin clicked. unfold add_favorite.
    apply str_in_In in Hin. rewrite Hin.
    destruct (clicked && negb (String.eqb new_fav "")); reflexivity.
  - intros clicked. unfold add_favorite. cbn. rewrite andb_false_r. reflexivity.
  - reflexivity.
Qed.

(** ** The moon phase from day to day *)

Lemma all_short_shifts_checked : all_short_shifts_in_range = true.
Proof. vm_compute. reflexivity. Qed.

Lemma short_shift_calendar (leap0 leap1 : bool) (n : nat) (m d : Z) :
  (n <= 30)%nat ->
  (1 <= m <= 12)%Z -> (1 <= d <= days_in_month leap0 m)%Z ->
  short_shift_in_range leap0 leap1 n m d = true.
Proof.
  intros Hn Hm Hd.
  assert (Hbool : forall b : bool, In b [false; true])
    by (intros [|]; simpl; auto).
  assert (Hdim : (days_in_month leap0 m <= 31)%Z).
  { unfold days_in_month.
    destruct (m =? 2)%Z, leap0,
      ((m =? 4) || (m =? 6) || (m =? 9) || (m =? 11))%Z; lia. }
  assert (Hn' : In n (seq 0 31)) by (apply in_seq; lia).
  assert (Hm' : In (Z.to_nat m) (seq 1 12)) by (apply in_seq; lia).
  assert (Hd' : In (Z.to_nat d) (seq 1 31)) by (apply in_seq; lia).
  pose proof all_short_shifts_checked as H0.
  unfold all_short_shifts_in_range in H0.
  pose proof (proj1 (forallb_forall _ _) H0 leap0 (Hbool leap0)) as H1.
  pose proof (proj1 (forallb_forall _ _) H1 leap1 (Hbool leap1)) as H2.
  pose proof (proj1 (forallb_forall _ _) H2 n Hn') as H3.
  pose proof (proj1 (forallb_forall _ _) H3 _ Hm') as H4.
  pose proof (proj1 (forallb_forall _ _) H4 _ Hd') as H5.
  cbv beta in H5. rewrite !Z2Nat.id in H5 by lia.
  assert (Hle : (d <=? days_in_month leap0 m)%Z = true) by (apply Z.leb_le; lia).
  rewrite Hle in H5. exact H5.
Qed.

Lemma lunation_short_shift (now : datetime) (n : nat) :
  calendar_date now -> (n <= 30)%nat ->
  (0 <= lunation_units (add_days n now) - lunation_units now <= 40055)%Z.
Proof.
  intros [Hm Hd] Hn.
  pose proof (short_shift_calendar (is_leap (year now))
                (is_leap (year now + 1)) n (month now) (day now) Hn Hm Hd) as H.
  unfold short_shift_in_range, units_shift in H.
  destruct (advance_md (is_leap (year now)) (is_leap (year now + 1)) n false
              (month now) (day now)) as [[[carried m'] d'] |] eqn:E;
    [| discriminate].
  apply andb_true_iff in H. destruct H as [H1 H2].
  apply Z.leb_le in H1, H2.
  destruct now as [y m d h mi s]. cbn [year month day] in *.
  apply (advance_md_add_days y n false m d h mi s) in E.
  cbn [year] in E. rewrite E. unfold lunation_units. cbn [year month day].
  destruct carried; lia.
Qed.



(** ** More on the daily forecast *)



Lemma str_lt_asym (a b : string) : str_lt a b -> str_lt b a -> False.
Proof.
  unfold str_lt, String.ltb. rewrite (String.compare_antisym a b).
  destruct (String.compare b a); simpl; discriminate.
Qed.

Lemma strictly_sorted_NoDup (l : list string) :
  StronglySorted str_lt l -> NoDup l.
Proof.
  induction 1 as [| a r Hr IH Hall]; constructor; [| exact IH].
  intros Ha. rewrite Forall_forall in Hall.
  exact (str_lt_irrefl a (Hall a Ha)).
Qed.

(** X13.  The daily forecast has one card for each of the first seven dates:
    their number is the number of distinct date keys of the input, or seven
    if there are more, and the date on a card is the local time of the first
    sample of its day in the input. *)
Theorem daily_forecast_card_count
    (fromtimestamp : Z -> datetime) (set_iter : list string -> list string)
    (l : list item) (units : string) :
  set_semantics set_iter ->
  exists cards,
    render_daily_forecast fromtimestamp set_iter l units = Some cards /\
    List.length cards =
      Nat.min 7 (List.length (uniq (map (date_key_of fromtimestamp) l))) /\
    NoDup (map card_key cards) /\
    Forall
      (fun c =>
         exists it rest,
           samples_on fromtimestamp (card_key c) l = it :: rest /\
           card_date c = fromtimestamp (i_dt it))
      cards.
Proof.
  intros Hset.
  destruct (render_daily_forecast_shown fromtimestamp set_iter Hset l units)
    as (cards & keys & Hr & Hsorted & Hkeys & Hmap & Hall).
  exists cards. split; [exact Hr |]. split; [| split].
  - assert (Hlen : List.length keys
                   = List.length (uniq (map (date_key_of fromtimestamp) l))).
    { apply Permutation_length. apply NoDup_Permutation.
      - apply strictly_sorted_NoDup. exact Hsorted.
      - apply uniq_NoDup.
      - intros k. rewrite Hkeys, uniq_In, in_map_iff. split.
        + intros (it & Hit & Hk). exists it. split; [exact Hk | exact Hit].
        + intros (it & Hk & Hit). exists it. split; [exact Hit | exact Hk]. }
    rewrite <- Hlen, <- length_firstn, <- Hmap, length_map. reflexivity.
  - rewrite Hmap. apply strictly_sorted_NoDup.
    apply StronglySorted_firstn. exact Hsorted.
  - eapply Forall_impl; [| exact Hall].
    intros c (it & r & Hs & Hdate & _). exists it, r. split; assumption.
Qed.

Lemma daily_forecast_card_count_witness :
  exists cards,
    render_daily_forecast utc_fromtimestamp first_seen_order one_day_forecast
      "imperial" = Some cards /\
    List.length cards = 1%nat.
Proof.
  destruct (daily_forecast_card_count utc_fromtimestamp first_seen_order
              one_day_forecast "imperial" first_seen_order_set)
    as (cards & Hr & Hlen & _).
  exists cards. split; [exact Hr |]. rewrite Hlen. reflexivity.
Defined.

Lemma strictly_sorted_unique (l1 l2 : list string) :
  StronglySorted str_lt l1 -> StronglySorted str_lt l2 ->
  (forall k, In k l1 <-> In k l2) -> l1 = l2.
Proof.
  intros H1. revert l2. induction H1 as [| a r1 Hr1 IH Ha]; intros l2 H2 Hsame.
  - destruct l2 as [| b r2]; [reflexivity |].
    exfalso. apply (proj2 (Hsame b)). left; reflexivity.
  - destruct H2 as [| b r2 Hr2 Hb].
    + exfalso. apply (proj1 (Hsame a)). left; reflexivity.
    + rewrite Forall_forall in Ha, Hb.
      assert (Hab : a = b).
      { destruct (proj1 (Hsame a) (or_introl eq_refl)) as [E | Hin]; [auto |].
        destruct (proj2 (Hsame b) (or_introl eq_refl)) as [E | Hin']; [auto |].
        exfalso. exact (str_lt_asym a b (Ha b Hin') (Hb a Hin)). }
      subst b. f_equal. apply IH; [exact Hr2 |].
      intros k. split; intros Hk.
      * destruct (proj1 (Hsame k) (or_intror Hk)) as [E | Hin]; [| exact Hin].
        subst k. exfalso. exact (str_lt_irrefl a (Ha a Hk)).
      * destruct (proj2 (Hsame k) (or_intror Hk)) as [E | Hin]; [| exact Hin].
        subst k. exfalso. exact (str_lt_irrefl a (Hb a Hk)).
Qed.

Lemma is_max_same_elements (l l' : list Q) (m m' : Q) :
  (forall x, In x l <-> In x l') -> is_max m l -> is_max m' l' -> m == m'.
Proof.
  intros Hsame [Hin Hmax] [Hin' Hmax'].
  apply Qle_antisym.
  - apply Hmax'. apply Hsame. exact Hin.
  - apply Hmax. apply Hsame. exact Hin'.
Qed.

Lemma is_min_same_elements (l l' : list Q) (m m' : Q) :
  (forall x, In x l <-> In x l') -> is_min m l -> is_min m' l' -> m == m'.
Proof.
  intros Hsame [Hin Hmin] [Hin' Hmin'].
  apply Qle_antisym.
  - apply Hmin. apply Hsame. exact Hin'.
  - apply Hmin'. apply Hsame. exact Hin.
Qed.

Lemma Forall2_same_keys {A K : Type} (f : A -> K) (P Q : A -> Prop)
    (R : A -> A -> Prop) (l l' : list A) :
  (forall x y, f x = f y -> P x -> Q y -> R x y) ->
  map f l = map f l' -> Forall P l -> Forall Q l' -> Forall2 R l l'.
Proof.
  intros HR. revert l'. induction l as [| x r IH]; intros [| y r'] Hmap HP HQ;
    try discriminate; constructor.
  - simpl in Hmap. injection Hmap as Hxy _.
    inversion HP; inversion HQ; subst. apply HR; assumption.
  - simpl in Hmap. injection Hmap as _ Hrest.
    inversion HP; inversion HQ; subst. apply IH; assumption.
Qed.

Lemma samples_on_same_elements (fromtimestamp : Z -> datetime)
    {B : Type} (f : item -> B) (k : string) (l l' : list item) :
  (forall it, In it l <-> In it l') ->
  forall x, In x (map f (samples_on fromtimestamp k l)) <->
            In x (map f (samples_on fromtimestamp k l')).
Proof.
  intros Hsame x. rewrite !in_map_iff.
  split; intros (it & Hx & Hit); exists it; (split; [exact Hx |]);
    apply samples_on_In; apply samples_on_In in Hit;
    destruct Hit as [Hit Hk]; (split; [apply Hsame; exact Hit | exact Hk]).
Qed.

(** X14.  The daily forecast does not depend on the order of the samples
    for what it shows of the temperatures and the rain: two lists with the
    same samples in a different order give cards for the same dates, in the
    same order, with equal high, low and rain figures. *)
Theorem daily_forecast_order_independent
    (fromtimestamp : Z -> datetime) (set_iter : list string -> list string)
    (l l' : list item) (units : string) :
  set_semantics set_iter -> Permutation l l' ->
  exists cards cards',
    render_daily_forecast fromtimestamp set_iter l units = Some cards /\
    render_daily_forecast fromtimestamp set_iter l' units = Some cards' /\
    Forall2
      (fun c c' =>
         card_key c = card_key c' /\
         card_high c == card_high c' /\
         card_low c == card_low c' /\
         card_rain c == card_rain c')
      cards cards'.
Proof.
  intros Hset Hperm.
  assert (Hsame : forall it, In it l <-> In it l').
  { intros it. split; apply Permutation_in;
      [exact Hperm | apply Permutation_sym; exact Hperm]. }
  destruct (render_daily_forecast_shown fromtimestamp set_iter Hset l units)
    as (cards & keys & Hr & Hsorted & Hkeys & Hmap & Hall).
  destruct (render_daily_forecast_shown fromtimestamp set_iter Hset l' units)
    as (cards' & keys' & Hr' & Hsorted' & Hkeys' & Hmap' & Hall').
  exists cards, cards'. split; [exact Hr | split; [exact Hr' |]].
  assert (Ekeys : keys = keys').
  { apply strictly_sorted_unique; try assumption.
    intros k. rewrite Hkeys, Hkeys'. split; intros (it & Hit & Hk);
      exists it; (split; [apply Hsame; exact Hit | exact Hk]). }
  subst keys'.
  eapply (Forall2_same_keys card_key); [| | exact Hall | exact Hall'].
  - intros c c' Hk (it & r & Hs & _ & _ & Hhi & Hlo & (m & Hm & Hrain) & _)
      (it' & r' & Hs' & _ & _ & Hhi' & Hlo' & (m' & Hm' & Hrain') & _).
    rewrite <- Hs in Hhi, Hlo, Hm. rewrite <- Hs', <- Hk in Hhi', Hlo', Hm'.
    apply py_max_is_max in Hhi, Hhi', Hm, Hm'.
    apply py_min_is_min in Hlo, Hlo'.
    split; [exact Hk | split; [| split]].
    + eapply is_max_same_elements; [| exact Hhi | exact Hhi'].
      apply samples_on_same_elements. exact Hsame.
    + eapply is_min_same_elements; [| exact Hlo | exact Hlo'].
      apply samples_on_same_elements. exact Hsame.
    + rewrite Hrain, Hrain'.
      apply Qmult_comp; [| reflexivity].
      eapply is_max_same_elements; [| exact Hm | exact Hm'].
      apply samples_on_same_elements. exact Hsame.
  - rewrite Hmap, Hmap'. reflexivity.
Qed.

Lemma daily_forecast_order_independent_witness :
  exists cards cards',
    render_daily_forecast utc_fromtimestamp first_seen_order one_day_forecast
      "metric" = Some cards /\
    render_daily_forecast utc_fromtimestamp first_seen_order
      (rev one_day_forecast) "metric" = Some cards' /\
    Forall2
      (fun c c' =>
         card_key c = card_key c' /\
         card_high c == card_high c' /\
         card_low c == card_low c' /\
         card_rain c == card_rain c')
      cards cards'.
Proof.
  apply (daily_forecast_order_independent utc_fromtimestamp first_seen_order
           one_day_forecast (rev one_day_forecast) "metric").
  - exact first_seen_order_set.
  - apply Permutation_rev.
Defined.

(** ** The hourly forecast *)

Lemma hourly_cards_prefix {A : Type} (l : list A) :
  firstn (Nat.min (List.length (firstn 8 l)) 4) (firstn 4 (firstn 8 l))
  = firstn 4 (firstn 8 l).
Proof.
  apply firstn_all2. rewrite !length_firstn. lia.
Qed.

